(** * grantai backend: the document store, its chunker and the upload endpoint

    A shallow embedding of [src/backend/main.py].  Python values are modelled
    as follows.

    - [str] is a list of Unicode code points, [bytes] a list of bytes.
    - Python integers are [Z]; list lengths are turned into [Z] by [len].
    - The OpenAI client, sklearn's [cosine_similarity], [str.lower],
      [bytes.decode] and textract are not code of this repository: they are
      the fields of the class [Runtime].
    - A function body is a computation in the monad [M]: it threads the heap
      (the state of the outside world and the global [document_store]),
      either returns a value or raises an exception, and has no result at
      all when a [while] loop is cut off by its fuel. *)

From Stdlib Require Import ZArith List Lia Bool Sorted Permutation.
From Stdlib Require Strings.String Strings.Ascii Strings.Byte.
From stdpp Require Import base tactics option list gmap.
Import String.StringSyntax.

Local Open Scope Z_scope.

(** ** Python data *)

Definition char := N.
Definition str := list char.
Definition bytes := list Byte.byte.

(** A string literal of the source, as code points. *)
Definition lit (s : String.string) : str :=
  map Ascii.N_of_ascii (String.list_ascii_of_string s).
Arguments lit s%_string_scope.

Definition len {A} (l : list A) : Z := Z.of_nat (length l).

(** [l[start:stop]] for integer bounds: a negative bound counts from the end
    of the list, and both bounds are clamped to [0 .. len l]. *)
Definition adjust_index (n i : Z) : Z :=
  if i <? 0 then Z.max (i + n) 0 else Z.min i n.

Definition py_slice {A} (l : list A) (start stop : Z) : list A :=
  let lo := adjust_index (len l) start in
  let hi := adjust_index (len l) stop in
  take (Z.to_nat (hi - lo)) (drop (Z.to_nat lo) l).

(** [s.endswith(suffix)] and [s.endswith((suffix1, suffix2, ...))]. *)
Definition endswith (s suffix : str) : bool :=
  bool_decide (drop (length s - length suffix)%nat s = suffix).

Definition endswith_any (s : str) (suffixes : list str) : bool :=
  existsb (endswith s) suffixes.

(** [s < t] on strings: lexicographic on code points. *)
Fixpoint str_ltb (s t : str) : bool :=
  match s, t with
  | [], [] => false
  | [], _ :: _ => true
  | _ :: _, [] => false
  | a :: s', b :: t' => if (a =? b)%N then str_ltb s' t' else (a <? b)%N
  end.

(** ** Exceptions *)

(** Everything raised here is an instance of [Exception]; the [detail]
    message of an [HTTPException] is not modelled. *)
Inductive exn : Type :=
  | HTTPException (status_code : Z)
  | UnicodeDecodeError
  | ValueError
  | ProviderError
  | ExtractionError.

Inductive result (A : Type) : Type :=
  | Ok (a : A)
  | Raise (e : exn).
Arguments Ok {A} a.
Arguments Raise {A} e.

(** ** What the program imports *)

Class Runtime : Type := {
  (** the state of everything outside the process *)
  world : Type;
  (** finite floating-point numbers, with [<] and [==] *)
  pyfloat : Type;
  float_ltb : pyfloat -> pyfloat -> bool;
  float_eqb : pyfloat -> pyfloat -> bool;
  (** [client.embeddings.create(model="text-embedding-ada-002",
      input=text).data[0].embedding] *)
  embeddings_create : str -> world -> result (list pyfloat) * world;
  (** [cosine_similarity([a], [b])[0][0]] *)
  cosine_similarity : list pyfloat -> list pyfloat -> result pyfloat;
  (** [s.lower()] *)
  str_lower : str -> str;
  (** [b.decode('utf-8')] *)
  decode_utf8 : bytes -> result str;
  (** writing the bytes to a temporary file named after [filename]'s
      extension, [textract.process] on it, and unlinking the file *)
  textract_process : bytes -> str -> world -> result bytes * world;
  (** whether [import textract] succeeded *)
  TEXTRACT_AVAILABLE : bool;
}.

(** The order of floats that are not NaN. *)
Class FloatOrder `{Runtime} : Prop := {
  float_ltb_asym : forall a b, float_ltb a b = true -> float_ltb b a = false;
  float_ltb_negtrans : forall a b c,
    float_ltb a b = false -> float_ltb b c = false -> float_ltb a c = false;
  float_eqb_incomparable : forall a b,
    float_eqb a b = true -> float_ltb a b = false /\ float_ltb b a = false;
}.

(** ** The store and the heap *)

Section Model.
Context `{RT : Runtime}.

Record StoredChunk : Type := {
  content : str;
  embedding : list pyfloat;
  filename : str;
}.

Record DocumentStore : Type := {
  documents : list StoredChunk;
  chunk_size : Z;
  chunk_overlap : Z;
}.

Definition __init__ : DocumentStore :=
  {| documents := []; chunk_size := 1000; chunk_overlap := 200 |}.

Record heap : Type := {
  ext : world;
  document_store : DocumentStore;
}.

Definition set_ext (w : world) (h : heap) : heap :=
  {| ext := w; document_store := document_store h |}.

Definition set_documents (ds : list StoredChunk) (h : heap) : heap :=
  {| ext := ext h;
     document_store :=
       {| documents := ds;
          chunk_size := chunk_size (document_store h);
          chunk_overlap := chunk_overlap (document_store h) |} |}.

(** ** The monad of function bodies *)

Definition M (A : Type) : Type := heap -> option (result A * heap).

Definition ret {A} (a : A) : M A := fun h => Some (Ok a, h).

Definition raise {A} (e : exn) : M A := fun h => Some (Raise e, h).

Definition bind {A B} (m : M A) (k : A -> M B) : M B := fun h =>
  match m h with
  | None => None
  | Some (Ok a, h') => k a h'
  | Some (Raise e, h') => Some (Raise e, h')
  end.

(** [try: body / except Exception as e: handler e] *)
Definition try_except {A} (body : M A) (handler : exn -> M A) : M A := fun h =>
  match body h with
  | None => None
  | Some (Ok a, h') => Some (Ok a, h')
  | Some (Raise e, h') => handler e h'
  end.

(** A pure library call that may raise. *)
Definition call {A} (r : result A) : M A := fun h => Some (r, h).

(** A [while] loop that used up its fuel. *)
Definition out_of_fuel {A} : M A := fun _ => None.

Definition self : M DocumentStore := fun h => Some (Ok (document_store h), h).

Definition documents_append (d : StoredChunk) : M unit := fun h =>
  Some (Ok tt, set_documents (documents (document_store h) ++ [d]) h).

Notation "x <- m ;; k" := (bind m (fun x => k))
  (at level 100, m at next level, right associativity).

(** [for x in xs: body x] *)
Fixpoint for_ {A} (xs : list A) (body : A -> M unit) : M unit :=
  match xs with
  | [] => ret tt
  | x :: xs' => _ <- body x ;; for_ xs' body
  end.

(** ** DocumentStore._create_chunks *)

(** The [while start < len(text)] loop; [fuel] bounds the number of times the
    loop condition is evaluated. *)
Fixpoint _create_chunks_loop (fuel : nat) (size overlap : Z) (text : str)
    (start : Z) (chunks : list str) : option (list str) :=
  match fuel with
  | O => None
  | S fuel' =>
      if start <? len text then
        let end_ := start + size in
        let chunk := py_slice text start end_ in
        let chunks := chunks ++ [chunk] in
        let start := end_ - overlap in
        _create_chunks_loop fuel' size overlap text start chunks
      else Some chunks
  end.

Definition _create_chunks (fuel : nat) (text : str) : M (list str) :=
  this <- self ;;
  match _create_chunks_loop fuel (chunk_size this) (chunk_overlap this) text 0 [] with
  | Some chunks => ret chunks
  | None => out_of_fuel
  end.

(** ** DocumentStore._generate_embedding *)

Definition _generate_embedding (text : str) : M (list pyfloat) :=
  try_except
    (fun h => let (r, w) := embeddings_create text (ext h) in Some (r, set_ext w h))
    (fun e => raise e).

(** ** DocumentStore.add_document *)

Definition add_document (fuel : nat) (content filename : str) : M unit :=
  chunks <- _create_chunks fuel content ;;
  try_except
    (for_ chunks (fun chunk =>
       embedding <- _generate_embedding chunk ;;
       documents_append
         {| content := chunk; embedding := embedding; filename := filename |}))
    (fun e => raise e).

(** ** DocumentStore.get_relevant_chunks *)

(** [(a, s) < (b, t)] on tuples: the first components that differ decide. *)
Definition tuple_ltb (x y : pyfloat * str) : bool :=
  if float_eqb x.1 y.1 then str_ltb x.2 y.2 else float_ltb x.1 y.1.

(** [l.sort(reverse=True)]: the stable sort into descending order, written
    as an insertion sort. *)
Fixpoint insert_desc (x : pyfloat * str) (l : list (pyfloat * str)) :
    list (pyfloat * str) :=
  match l with
  | [] => [x]
  | y :: l' => if tuple_ltb x y then y :: insert_desc x l' else x :: l
  end.

Fixpoint sort_reverse (l : list (pyfloat * str)) : list (pyfloat * str) :=
  match l with
  | [] => []
  | x :: l' => insert_desc x (sort_reverse l')
  end.

(** The [for doc in self.documents] loop that fills [similarities]. *)
Fixpoint similarities_loop (query_embedding : list pyfloat)
    (docs : list StoredChunk) (similarities : list (pyfloat * str)) :
    M (list (pyfloat * str)) :=
  match docs with
  | [] => ret similarities
  | doc :: docs' =>
      similarity <- call (cosine_similarity query_embedding (embedding doc)) ;;
      similarities_loop query_embedding docs'
        (similarities ++ [(similarity, content doc)])
  end.

Definition get_relevant_chunks (query : str) (top_k : Z) : M (list str) :=
  this <- self ;;
  match documents this with
  | [] => ret []
  | _ :: _ =>
      try_except
        (query_embedding <- _generate_embedding query ;;
         this <- self ;;
         similarities <- similarities_loop query_embedding (documents this) [] ;;
         let similarities := sort_reverse similarities in
         ret (map snd (py_slice similarities 0 top_k)))
        (fun _ => ret [])
  end.

(** ** extract_text_from_file *)

Definition extract_text_from_file (file_content : bytes) (filename : str) : M str :=
  try_except
    (if endswith filename (lit ".txt") then call (decode_utf8 file_content)
     else if TEXTRACT_AVAILABLE then
       raw <- (fun h => let (r, w) := textract_process file_content filename (ext h) in
                        Some (r, set_ext w h)) ;;
       call (decode_utf8 raw)
     else
       if negb (endswith filename (lit ".txt")) then raise (HTTPException 400)
       else call (decode_utf8 file_content))
    (fun _ => raise (HTTPException 500)).

(** ** POST /api/upload *)

Record UploadFile : Type := {
  file_filename : str;
  file_bytes : bytes;
}.

Record UploadResponse : Type := {
  message : str;
  count : Z;
  status : str;
  textract_available : bool;
}.

Definition allowed_extensions : list str :=
  if negb TEXTRACT_AVAILABLE then [lit ".txt"]
  else [lit ".txt"; lit ".doc"; lit ".docx"].

(** The body of [for file in files]; closing the file in [finally] has no
    effect on the heap. *)
Definition upload_one (fuel : nat) (file : UploadFile) : M unit :=
  if negb (endswith_any (str_lower (file_filename file)) allowed_extensions)
  then raise (HTTPException 400)
  else
    let content := file_bytes file in
    try_except
      (text_content <- extract_text_from_file content (file_filename file) ;;
       add_document fuel text_content (file_filename file))
      (fun _ => raise (HTTPException 400)).

Definition upload_files (fuel : nat) (files : list UploadFile) : M UploadResponse :=
  match files with
  | [] => raise (HTTPException 400)
  | _ :: _ =>
      if len files >? 5 then raise (HTTPException 400)
      else
        try_except
          (_ <- for_ files (upload_one fuel) ;;
           ret {| message := lit "Files uploaded successfully";
                  count := len files;
                  status := lit "success";
                  textract_available := TEXTRACT_AVAILABLE |})
          (fun _ => raise (HTTPException 500))
  end.

(** ** GET /health *)

Record HealthResponse : Type := {
  health_status : str;
  document_count : Z;
  health_textract_available : bool;
}.

Definition health_check : M HealthResponse :=
  this <- self ;;
  ret {| health_status := lit "healthy";
         document_count := len (documents this);
         health_textract_available := TEXTRACT_AVAILABLE |}.

(** ** Runs of the embedding provider *)

(** The entry that [add_document] appends for a chunk and its embedding. *)
Definition stored (filename chunk : str) (embedding : list pyfloat) : StoredChunk :=
  {| content := chunk; embedding := embedding; filename := filename |}.

(** The provider called on the chunks in turn, from the world [w], up to its
    first failure: the embeddings it returned, the exception if it raised
    one, and the world it left. *)
Fixpoint embed_run (chunks : list str) (w : world) :
    list (list pyfloat) * option exn * world :=
  match chunks with
  | [] => ([], None, w)
  | chunk :: chunks' =>
      match embeddings_create chunk w with
      | (Ok e, w') =>
          let '(es, err, w'') := embed_run chunks' w' in (e :: es, err, w'')
      | (Raise x, w') => ([], Some x, w')
      end
  end.

Definition outcome (err : option exn) : result unit :=
  match err with
  | None => Ok tt
  | Some x => Raise x
  end.

(** ** Computations that only append to the store *)

(** Whenever [m] ends, by returning or by raising, the documents it started
    from are a prefix of the documents it leaves. *)
Definition grows {A} (m : M A) : Prop :=
  forall h r h', m h = Some (r, h') ->
    documents (document_store h) `prefix_of` documents (document_store h').

End Model.

Notation "x <- m ;; k" := (bind m (fun x => k))
  (at level 100, m at next level, right associativity).

(** ** The spec's reading of "overlaps removed" *)

(** The first chunk followed by every later chunk without its first
    [overlap] characters. *)
Definition remove_overlaps (overlap : Z) (chunks : list str) : str :=
  match chunks with
  | [] => []
  | first :: rest => first ++ concat (map (drop (Z.to_nat overlap)) rest)
  end.

(** ** A scripted runtime for concrete runs

    The embedding provider answers its first [w] calls and fails from then
    on; floats are integers; the similarity is a dot product that rejects
    vectors of different lengths; only ASCII is lowered or decoded. *)

Module Scripted.

Definition lower_char (c : char) : char :=
  if ((65 <=? c) && (c <=? 90))%N then (c + 32)%N else c.

Fixpoint dot (a b : list Z) : result Z :=
  match a, b with
  | [], [] => Ok 0
  | x :: a', y :: b' =>
      match dot a' b' with
      | Ok s => Ok (x * y + s)
      | Raise e => Raise e
      end
  | _, _ => Raise ValueError
  end.

Definition decode (b : bytes) : result str :=
  if forallb (fun c => (Byte.to_N c <? 128)%N) b then Ok (map Byte.to_N b)
  else Raise UnicodeDecodeError.

#[export] Instance runtime : Runtime := {|
  world := nat;
  pyfloat := Z;
  float_ltb := Z.ltb;
  float_eqb := Z.eqb;
  embeddings_create := fun text w =>
    match w with
    | O => (Raise ProviderError, O)
    | S w' => (Ok [len text; 1], w')
    end;
  cosine_similarity := dot;
  str_lower := map lower_char;
  decode_utf8 := decode;
  textract_process := fun _ _ w => (Raise ExtractionError, w);
  TEXTRACT_AVAILABLE := false;
|}.

Definition fresh (w : nat) : heap := {| ext := w; document_store := __init__ |}.

Definition with_parameters (size overlap : Z) : heap :=
  {| ext := O;
     document_store :=
       {| documents := []; chunk_size := size; chunk_overlap := overlap |} |}.

Definition a_text (n : nat) : str := repeat 97%N n.

(** What the scripted provider returns for a text of [n] characters. *)
Definition answer (n : Z) : list pyfloat := [n; 1].

(** An embedding given by its components. *)
Definition vector (components : list Z) : list pyfloat := components.

(** A store of three chunks, with a provider that answers [w] more calls. *)
Definition shelf (w : nat) : heap :=
  {| ext := w;
     document_store :=
       {| documents := [stored (lit "notes.txt") (lit "ab") (answer 2);
                        stored (lit "notes.txt") (lit "abcd") (answer 4);
                        stored (lit "plan.txt") (lit "a") (answer 1)];
          chunk_size := 1000;
          chunk_overlap := 200 |} |}.

(** A store whose second chunk has an embedding of another dimension than
    the answers of the provider. *)
Definition mixed (w : nat) : heap :=
  {| ext := w;
     document_store :=
       {| documents := [stored (lit "notes.txt") (lit "ab") (answer 2);
                        stored (lit "old.txt") (lit "abcd") (vector [4])];
          chunk_size := 1000;
          chunk_overlap := 200 |} |}.

Definition upload (name : String.string) (n : nat) : UploadFile :=
  {| file_filename := lit name; file_bytes := repeat Byte.x61 n |}.
Arguments upload name%_string_scope n%_nat_scope.

End Scripted.

(** ** Computations that keep the chunking parameters *)

Section Parameters.
Context `{RT : Runtime}.

(** Whenever [m] ends, [chunk_size] and [chunk_overlap] are what they were. *)
Definition keeps_parameters {A} (m : M A) : Prop :=
  forall h r h', m h = Some (r, h') ->
    chunk_size (document_store h') = chunk_size (document_store h) /\
    chunk_overlap (document_store h') = chunk_overlap (document_store h).

(** The window of [text] that the chunker cuts in its [i]-th iteration. *)
Definition window (size overlap : Z) (text : str) (i : nat) : str :=
  py_slice text (Z.of_nat i * (size - overlap))
    (Z.of_nat i * (size - overlap) + size).

(** The number of iterations of the chunker on a text of [n] characters:
    [n] divided by the step, rounded up. *)
Definition window_count (size overlap n : Z) : nat :=
  Z.to_nat ((n + (size - overlap) - 1) / (size - overlap)).

End Parameters.

(** ** POST /api/generate *)

(** [client.chat.completions.create(model="gpt-4", messages=[system, user])
    .choices[0].message.content] for the fixed system message and the user
    message [prompt]. *)
Class ChatRuntime `{Runtime} : Type := {
  chat_completions_create : str -> world -> result str * world;
}.

Section Generation.
Context `{CR : ChatRuntime}.

Definition generate_proposal_chunk (prompt : str) : M str :=
  try_except
    (fun h => let (r, w) := chat_completions_create prompt (ext h) in
              Some (r, set_ext w h))
    (fun e => raise e).

(** The newline character. *)
Definition nl : str := [10%N].

(** [sep.join(parts)] *)
Fixpoint join (sep : str) (parts : list str) : str :=
  match parts with
  | [] => []
  | [part] => part
  | part :: parts' => part ++ sep ++ join sep parts'
  end.

Record ProposalResponse : Type := {
  proposal : str;
}.

(** The f-string [full_prompt] for the requirements and the context. *)
Definition full_prompt (requirements context : str) : str :=
  lit "Generate a grant proposal based on these requirements: "
    ++ requirements ++ nl ++ context.

(** The context built from the relevant chunks. *)
Definition context_of (relevant_chunks : list str) : str :=
  match relevant_chunks with
  | [] => []
  | _ :: _ =>
      (nl ++ nl ++ lit "Relevant reference materials:" ++ nl)
        ++ join (nl ++ lit "---" ++ nl) relevant_chunks
  end.

(** [body.get("requirements")] is looked at once: after the guard,
    [body["requirements"]] is the value the guard has seen. *)
Definition generate_proposal (body : gmap str str) : M ProposalResponse :=
  match body !! lit "requirements" with
  | None => raise (HTTPException 400)
  | Some [] => raise (HTTPException 400)
  | Some requirements =>
      try_except
        (relevant_chunks <- get_relevant_chunks requirements 3 ;;
         let context := context_of relevant_chunks in
         proposal <- generate_proposal_chunk (full_prompt requirements context) ;;
         ret {| proposal := proposal |})
        (fun _ => raise (HTTPException 500))
  end.

End Generation.

(** The scripted chat model answers with the prompt it was given and leaves
    the script of the embedding provider as it is. *)
Module ScriptedChat.

#[global] Instance chat : @ChatRuntime Scripted.runtime := {|
  chat_completions_create := fun prompt (w : @world Scripted.runtime) =>
    (Ok prompt, w);
|}.

Definition requirements (text : String.string) : gmap str str :=
  {[ lit "requirements" := lit text ]}.
Arguments requirements text%_string_scope.

End ScriptedChat.

(** * Slices *)

Section Slices.
Context {A : Type}.
Implicit Types l : list A.

Lemma py_slice_nonneg l (a b : Z) :
  0 <= a -> 0 <= b ->
  py_slice l a b = take (Z.to_nat b - Z.to_nat a) (drop (Z.to_nat a) l).
Proof.
  intros Ha Hb. unfold py_slice, adjust_index, len.
  destruct (Z.ltb_spec a 0) as [?|_]; [lia|].
  destruct (Z.ltb_spec b 0) as [?|_]; [lia|].
  destruct (Z_lt_le_dec a (Z.of_nat (length l))) as [Hlt|Hge].
  - rewrite (Z.min_l a) by lia.
    destruct (Z_lt_le_dec b (Z.of_nat (length l))) as [Hb'|Hb'].
    + rewrite Z.min_l by lia. f_equal. lia.
    + rewrite Z.min_r by lia.
      rewrite !take_ge; [done | | ]; rewrite length_drop; lia.
  - rewrite (Z.min_r a) by lia. rewrite !drop_ge by lia. by rewrite !take_nil.
Qed.

Lemma py_slice_length l (a b : Z) :
  0 <= a -> 0 <= b ->
  len (py_slice l a b) = Z.max 0 (Z.min b (len l) - Z.min a (len l)).
Proof.
  intros Ha Hb. rewrite py_slice_nonneg by done. unfold len.
  rewrite length_take, length_drop. lia.
Qed.

Lemma py_slice_whole l (b : Z) : len l <= b -> py_slice l 0 b = l.
Proof.
  intros Hb. unfold len in Hb. rewrite py_slice_nonneg by lia.
  rewrite drop_0. apply take_ge. lia.
Qed.

Lemma py_slice_prefix_length l (k : Z) : 0 <= k -> len (py_slice l 0 k) <= k.
Proof. intros Hk. rewrite py_slice_length by lia. unfold len. lia. Qed.

Lemma py_slice_prefix l (k : Z) : 0 <= k -> py_slice l 0 k = take (Z.to_nat k) l.
Proof.
  intros Hk. rewrite py_slice_nonneg by lia. rewrite drop_0. f_equal. lia.
Qed.

Lemma drop_take_drop l (a o s : nat) :
  (o <= s)%nat ->
  drop o (take s (drop a l)) ++ drop (a + s) l = drop (a + o) l.
Proof.
  intros Hos. rewrite <- !drop_drop.
  rewrite <- (take_drop s (drop a l)) at 3.
  rewrite drop_app. f_equal.
  destruct (Nat.le_gt_cases s (length (drop a l))) as [Hs|Hs].
  - rewrite length_take. replace (o - s `min` length (drop a l))%nat with O by lia.
    done.
  - rewrite (drop_ge (drop a l) s) by lia. by rewrite drop_nil.
Qed.

End Slices.

Example py_slice_clamped : py_slice (lit "hello") 1 100 = lit "ello".
Proof. reflexivity. Qed.

Example py_slice_from_the_end : py_slice (lit "hello") (-3) 4 = lit "ll".
Proof. reflexivity. Qed.

Example py_slice_crossed : py_slice (lit "hello") 4 2 = [].
Proof. reflexivity. Qed.

Example endswith_txt :
  endswith (lit "notes.txt") (lit ".txt") = true /\
  endswith (lit "txt") (lit ".txt") = false /\
  endswith_any (lit "cv.docx") [lit ".txt"; lit ".doc"; lit ".docx"] = true.
Proof. by vm_compute. Qed.

(** * The chunker *)

Section Chunker.
Context `{RT : Runtime}.
Implicit Types (text : str) (h : heap).

Lemma loop_step_lt fuel size overlap text start chunks stop next :
  start < len text ->
  stop = start + size ->
  next = stop - overlap ->
  _create_chunks_loop (S fuel) size overlap text start chunks =
  _create_chunks_loop fuel size overlap text next (chunks ++ [py_slice text start stop]).
Proof.
  intros Hlt -> ->. simpl. by destruct (Z.ltb_spec start (len text)); [|lia].
Qed.

Lemma loop_step_ge fuel size overlap text start chunks :
  len text <= start ->
  _create_chunks_loop (S fuel) size overlap text start chunks = Some chunks.
Proof.
  intros Hge. simpl. by destruct (Z.ltb_spec start (len text)); [lia|].
Qed.

Lemma loop_fuel_mono fuel fuel' size overlap text start chunks res :
  _create_chunks_loop fuel size overlap text start chunks = Some res ->
  (fuel <= fuel')%nat ->
  _create_chunks_loop fuel' size overlap text start chunks = Some res.
Proof.
  revert fuel' start chunks.
  induction fuel as [|fuel IH]; intros fuel' start chunks Hrun Hle; [done|].
  destruct fuel' as [|fuel']; [lia|].
  simpl in *. destruct (start <? len text); [|done].
  apply IH; [done | lia].
Qed.

Lemma loop_deterministic fuel fuel' size overlap text start chunks res res' :
  _create_chunks_loop fuel size overlap text start chunks = Some res ->
  _create_chunks_loop fuel' size overlap text start chunks = Some res' ->
  res = res'.
Proof.
  intros H1 H2.
  apply (loop_fuel_mono _ (fuel `max` fuel')) in H1; [|lia].
  apply (loop_fuel_mono _ (fuel `max` fuel')) in H2; [|lia].
  congruence.
Qed.

(** With a positive step the loop ends before the fuel does. *)
Lemma loop_terminates fuel size overlap text start chunks :
  overlap < size ->
  (Z.to_nat (len text - start) < fuel)%nat ->
  is_Some (_create_chunks_loop fuel size overlap text start chunks).
Proof.
  intros Hstep. revert start chunks.
  induction fuel as [|fuel IH]; intros start chunks Hfuel; [lia|].
  simpl. destruct (Z.ltb_spec start (len text)); [|done].
  apply IH. lia.
Qed.

(** With a non-positive step the loop condition stays true. *)
Lemma loop_diverges fuel size overlap text start chunks :
  size <= overlap ->
  start < len text ->
  _create_chunks_loop fuel size overlap text start chunks = None.
Proof.
  intros Hstep. revert start chunks.
  induction fuel as [|fuel IH]; intros start chunks Hlt; [done|].
  simpl. destruct (Z.ltb_spec start (len text)); [|lia].
  apply IH. lia.
Qed.

(** The chunks cut from [start] on, each without its first [overlap]
    characters, are the text from [start + overlap] on. *)
Lemma loop_reconstruct fuel size overlap text start chunks :
  0 <= overlap < size ->
  0 <= start ->
  (Z.to_nat (len text - start) < fuel)%nat ->
  exists more,
    _create_chunks_loop fuel size overlap text start chunks = Some (chunks ++ more) /\
    concat (map (drop (Z.to_nat overlap)) more) = drop (Z.to_nat (start + overlap)) text.
Proof.
  intros Hpar. revert start chunks.
  induction fuel as [|fuel IH]; intros start chunks Hstart Hfuel; [lia|].
  simpl. destruct (Z.ltb_spec start (len text)) as [Hlt|Hge].
  - destruct (IH (start + size - overlap)
               (chunks ++ [py_slice text start (start + size)]))
      as (more & Hrun & Hcat); [lia | lia |].
    exists (py_slice text start (start + size) :: more). split.
    + by rewrite Hrun, <- app_assoc.
    + simpl. rewrite Hcat. rewrite py_slice_nonneg by lia.
      replace (Z.to_nat (start + size) - Z.to_nat start)%nat
        with (Z.to_nat size) by lia.
      replace (Z.to_nat (start + size - overlap + overlap))
        with (Z.to_nat start + Z.to_nat size)%nat by lia.
      replace (Z.to_nat (start + overlap))
        with (Z.to_nat start + Z.to_nat overlap)%nat by lia.
      apply drop_take_drop. lia.
  - exists []. split; [by rewrite app_nil_r|].
    simpl. symmetry. apply drop_ge. unfold len in Hge. lia.
Qed.

Lemma _create_chunks_unfold fuel text h :
  _create_chunks fuel text h =
  match _create_chunks_loop fuel (chunk_size (document_store h))
          (chunk_overlap (document_store h)) text 0 [] with
  | Some chunks => Some (Ok chunks, h)
  | None => None
  end.
Proof.
  unfold _create_chunks, bind, self, ret, out_of_fuel.
  by destruct (_create_chunks_loop _ _ _ _ _ _).
Qed.

(** [_create_chunks] neither raises nor touches the heap. *)
Lemma _create_chunks_returns fuel text h r h' :
  _create_chunks fuel text h = Some (r, h') ->
  exists chunks, r = Ok chunks /\ h' = h.
Proof.
  rewrite _create_chunks_unfold.
  destruct (_create_chunks_loop _ _ _ _ _ _) as [chunks|]; [|done].
  intros [= <- <-]. by exists chunks.
Qed.

Lemma _create_chunks_deterministic fuel fuel' text h res res' :
  _create_chunks fuel text h = Some res ->
  _create_chunks fuel' text h = Some res' ->
  res = res'.
Proof.
  rewrite !_create_chunks_unfold.
  destruct (_create_chunks_loop fuel _ _ _ _ _) as [c|] eqn:E; [|done].
  destruct (_create_chunks_loop fuel' _ _ _ _ _) as [c'|] eqn:E'; [|done].
  intros [= <-] [= <-]. by rewrite (loop_deterministic _ _ _ _ _ _ _ _ _ E E').
Qed.

(** With a positive step, every fuel above the length of the text gives the
    same chunks. *)
Lemma _create_chunks_total text h :
  chunk_overlap (document_store h) < chunk_size (document_store h) ->
  exists chunks, forall fuel, (length text < fuel)%nat ->
    _create_chunks fuel text h = Some (Ok chunks, h).
Proof.
  intros Hstep.
  destruct (loop_terminates (S (length text)) (chunk_size (document_store h))
              (chunk_overlap (document_store h)) text 0 [] Hstep)
    as [chunks Hrun]; [unfold len; lia|].
  exists chunks. intros fuel Hfuel. rewrite _create_chunks_unfold.
  by rewrite (loop_fuel_mono _ fuel _ _ _ _ _ _ Hrun) by lia.
Qed.

(** C1 (as the code has it): with the default parameters a text of 2500
    characters is cut into four chunks, not three: the windows at offsets 0,
    800, 1600 and 2400, of lengths 1000, 1000, 900 and 100. *)
Theorem create_chunks_2500 text h fuel :
  chunk_size (document_store h) = 1000 ->
  chunk_overlap (document_store h) = 200 ->
  len text = 2500 ->
  (5 <= fuel)%nat ->
  let chunks := [py_slice text 0 1000; py_slice text 800 1800;
                 py_slice text 1600 2600; py_slice text 2400 3400] in
  _create_chunks fuel text h = Some (Ok chunks, h) /\
  map len chunks = [1000; 1000; 900; 100] /\
  chunks = [take 1000 text; take 1000 (drop 800 text);
            drop 1600 text; drop 2400 text].
Proof.
  intros Hsize Hoverlap Hlen Hfuel chunks. split; [|split].
  - rewrite _create_chunks_unfold, Hsize, Hoverlap.
    do 5 (destruct fuel as [|fuel]; [lia|]).
    rewrite (loop_step_lt _ _ _ _ 0 _ 1000 800) by lia.
    rewrite (loop_step_lt _ _ _ _ 800 _ 1800 1600) by lia.
    rewrite (loop_step_lt _ _ _ _ 1600 _ 2600 2400) by lia.
    rewrite (loop_step_lt _ _ _ _ 2400 _ 3400 3200) by lia.
    by rewrite loop_step_ge by lia.
  - unfold chunks. simpl. rewrite !py_slice_length, Hlen by lia. done.
  - unfold chunks. rewrite !py_slice_nonneg by lia. unfold len in Hlen.
    repeat f_equal; try (rewrite take_ge; [done|rewrite length_drop; lia]).
    all: rewrite ?drop_0; f_equal; lia.
Qed.

End Chunker.

Lemma create_chunks_2500_witness :
  len (Scripted.a_text 2500) = 2500 /\
  _create_chunks 5 (Scripted.a_text 2500) (Scripted.fresh 0)
  = Some (Ok [py_slice (Scripted.a_text 2500) 0 1000;
              py_slice (Scripted.a_text 2500) 800 1800;
              py_slice (Scripted.a_text 2500) 1600 2600;
              py_slice (Scripted.a_text 2500) 2400 3400], Scripted.fresh 0).
Proof.
  split; [vm_compute; reflexivity|].
  apply (create_chunks_2500 (Scripted.a_text 2500) (Scripted.fresh 0) 5);
    [reflexivity | reflexivity | vm_compute; reflexivity | lia].
Defined.

(** C1 (as stated) fails on a text of 2500 letters: the run gives four
    chunks, and no run gives chunks of lengths 1000, 1000 and 700. *)
Lemma create_chunks_2500_not_three :
  len (Scripted.a_text 2500) = 2500 /\
  (exists chunks,
     _create_chunks 5 (Scripted.a_text 2500) (Scripted.fresh 0)
       = Some (Ok chunks, Scripted.fresh 0) /\
     map len chunks = [1000; 1000; 900; 100]) /\
  ~ exists fuel chunks h',
      _create_chunks fuel (Scripted.a_text 2500) (Scripted.fresh 0)
        = Some (Ok chunks, h') /\
      map len chunks = [1000; 1000; 700].
Proof.
  split; [by vm_compute|].
  split; [eexists; split; by vm_compute|].
  intros (fuel & chunks & h' & Hrun & Hlens).
  assert (_create_chunks 5 (Scripted.a_text 2500) (Scripted.fresh 0)
          = Some (Ok [py_slice (Scripted.a_text 2500) 0 1000;
                      py_slice (Scripted.a_text 2500) 800 1800;
                      py_slice (Scripted.a_text 2500) 1600 2600;
                      py_slice (Scripted.a_text 2500) 2400 3400],
                  Scripted.fresh 0)) as Hfour by (by vm_compute).
  pose proof (_create_chunks_deterministic _ _ _ _ _ _ Hrun Hfour) as Heq.
  injection Heq as -> _. vm_compute in Hlens. discriminate.
Qed.

Section ChunkerProperties.
Context `{RT : Runtime}.
Implicit Types (text : str) (h : heap).

(** C2 (as the code has it): with chunk_size 1000 and chunk_overlap 200 the
    empty text gives no chunk; a non-empty text of at most 800 characters
    (the step) gives one chunk, the text itself; a text of 801 to 999
    characters gives two chunks, the text and its tail from offset 800. *)
Theorem create_chunks_short text h fuel :
  chunk_size (document_store h) = 1000 ->
  chunk_overlap (document_store h) = 200 ->
  (3 <= fuel)%nat ->
  (text = [] -> _create_chunks fuel text h = Some (Ok [], h)) /\
  (text <> [] -> len text <= 800 ->
     _create_chunks fuel text h = Some (Ok [text], h)) /\
  (800 < len text < 1000 ->
     _create_chunks fuel text h = Some (Ok [text; drop 800 text], h)).
Proof.
  intros Hsize Hoverlap Hfuel.
  rewrite _create_chunks_unfold, Hsize, Hoverlap.
  do 3 (destruct fuel as [|fuel]; [lia|]).
  split; [|split].
  - intros ->. by rewrite loop_step_ge.
  - intros Hne Hlen.
    assert (0 < len text) by (destruct text; [done | unfold len; simpl; lia]).
    rewrite (loop_step_lt _ _ _ _ 0 _ 1000 800) by lia.
    rewrite loop_step_ge by lia.
    by rewrite py_slice_whole by lia.
  - intros Hlen.
    rewrite (loop_step_lt _ _ _ _ 0 _ 1000 800) by lia.
    rewrite (loop_step_lt _ _ _ _ 800 _ 1800 1600) by lia.
    rewrite loop_step_ge by lia.
    rewrite py_slice_whole by lia.
    rewrite py_slice_nonneg by lia. unfold len in Hlen.
    rewrite take_ge by (rewrite length_drop; lia).
    do 4 f_equal.
Qed.

(** C3: for 0 <= chunk_overlap < chunk_size the chunker returns, and the
    first chunk followed by the later chunks without their first
    chunk_overlap characters is the text. *)
Theorem remove_overlaps_create_chunks text h :
  0 <= chunk_overlap (document_store h) < chunk_size (document_store h) ->
  exists chunks,
    (forall fuel, (length text < fuel)%nat ->
       _create_chunks fuel text h = Some (Ok chunks, h)) /\
    remove_overlaps (chunk_overlap (document_store h)) chunks = text.
Proof.
  set (size := chunk_size (document_store h)).
  set (overlap := chunk_overlap (document_store h)).
  intros Hpar.
  assert (exists chunks,
    _create_chunks_loop (S (length text)) size overlap text 0 [] = Some chunks /\
    remove_overlaps overlap chunks = text) as (chunks & Hrun & Hrec).
  { destruct (decide (text = [])) as [->|Hne].
    - exists []. by rewrite loop_step_ge.
    - assert (0 < len text) by (destruct text; [done | unfold len; simpl; lia]).
      rewrite (loop_step_lt _ _ _ _ 0 _ size (size - overlap)) by lia.
      destruct (loop_reconstruct (length text) size overlap text (size - overlap)
                  ([] ++ [py_slice text 0 size]) Hpar)
        as (more & Hrun & Hcat); [lia | unfold len in *; lia |].
      exists (py_slice text 0 size :: more). split; [exact Hrun|].
      simpl. rewrite Hcat. rewrite py_slice_prefix by lia.
      replace (Z.to_nat (size - overlap + overlap)) with (Z.to_nat size) by lia.
      apply take_drop. }
  exists chunks. split; [|done].
  intros fuel Hfuel. rewrite _create_chunks_unfold. fold size overlap.
  by rewrite (loop_fuel_mono _ fuel _ _ _ _ _ _ Hrun) by lia.
Qed.

(** C4 (as the code has it): [_create_chunks] has no guard and raises
    nothing.  With chunk_overlap < chunk_size it returns for every text;
    with chunk_overlap >= chunk_size it returns no chunk for the empty text
    and never returns for a non-empty text. *)
Theorem create_chunks_termination text h :
  (chunk_overlap (document_store h) < chunk_size (document_store h) ->
     exists chunks, forall fuel, (length text < fuel)%nat ->
       _create_chunks fuel text h = Some (Ok chunks, h)) /\
  (chunk_size (document_store h) <= chunk_overlap (document_store h) ->
     (text = [] -> forall fuel, (0 < fuel)%nat ->
        _create_chunks fuel text h = Some (Ok [], h)) /\
     (text <> [] -> forall fuel, _create_chunks fuel text h = None)) /\
  (forall fuel r h', _create_chunks fuel text h = Some (r, h') ->
     exists chunks, r = Ok chunks /\ h' = h).
Proof.
  split; [|split].
  - apply _create_chunks_total.
  - intros Hstep. split.
    + intros -> fuel Hfuel. rewrite _create_chunks_unfold.
      destruct fuel as [|fuel]; [lia|]. by rewrite loop_step_ge.
    + intros Hne fuel. rewrite _create_chunks_unfold.
      rewrite loop_diverges; [done | done |].
      destruct text; [done | unfold len; simpl; lia].
  - intros fuel r h'. apply _create_chunks_returns.
Qed.

(** The store built by [__init__] is in the terminating case. *)
Lemma init_create_chunks_total text w :
  exists chunks, forall fuel, (length text < fuel)%nat ->
    _create_chunks fuel text {| ext := w; document_store := __init__ |}
    = Some (Ok chunks, {| ext := w; document_store := __init__ |}).
Proof. apply _create_chunks_total. simpl. lia. Qed.

End ChunkerProperties.

Lemma create_chunks_short_witness :
  _create_chunks 3 (lit "grant") (Scripted.fresh 0)
  = Some (Ok [lit "grant"], Scripted.fresh 0).
Proof.
  apply (create_chunks_short (lit "grant") (Scripted.fresh 0) 3);
    [reflexivity | reflexivity | lia | discriminate | vm_compute; discriminate].
Defined.

(** C2 (as stated) fails on a text of 900 letters: it is non-empty and
    shorter than chunk_size, and it is cut into two chunks. *)
Lemma create_chunks_900_not_one :
  Scripted.a_text 900 <> [] /\
  len (Scripted.a_text 900) < chunk_size (document_store (Scripted.fresh 0)) /\
  _create_chunks 3 (Scripted.a_text 900) (Scripted.fresh 0)
    = Some (Ok [Scripted.a_text 900; Scripted.a_text 100], Scripted.fresh 0) /\
  ~ exists fuel h',
      _create_chunks fuel (Scripted.a_text 900) (Scripted.fresh 0)
      = Some (Ok [Scripted.a_text 900], h').
Proof.
  split; [discriminate|]. split; [by vm_compute|].
  assert (_create_chunks 3 (Scripted.a_text 900) (Scripted.fresh 0)
          = Some (Ok [Scripted.a_text 900; Scripted.a_text 100], Scripted.fresh 0))
    as Htwo by (by vm_compute).
  split; [exact Htwo|].
  intros (fuel & h' & Hrun).
  pose proof (_create_chunks_deterministic _ _ _ _ _ _ Hrun Htwo) as Heq.
  discriminate Heq.
Qed.

Lemma remove_overlaps_create_chunks_witness :
  exists chunks,
    (forall fuel, (11 < fuel)%nat ->
       _create_chunks fuel (lit "hello world") (Scripted.with_parameters 4 1)
       = Some (Ok chunks, Scripted.with_parameters 4 1)) /\
    remove_overlaps 1 chunks = lit "hello world".
Proof.
  apply (remove_overlaps_create_chunks (lit "hello world")
           (Scripted.with_parameters 4 1)).
  simpl. lia.
Defined.

Lemma create_chunks_termination_witness :
  (exists chunks, forall fuel, (1 < fuel)%nat ->
     _create_chunks fuel (lit "a") (Scripted.fresh 0)
     = Some (Ok chunks, Scripted.fresh 0)) /\
  (forall fuel, _create_chunks fuel (lit "a") (Scripted.with_parameters 200 200) = None).
Proof.
  split.
  - apply (create_chunks_termination (lit "a") (Scripted.fresh 0)). simpl. lia.
  - apply (create_chunks_termination (lit "a") (Scripted.with_parameters 200 200));
      [simpl; lia | discriminate].
Defined.

(** C4 (as stated) fails for chunk_size = chunk_overlap = 200 on the text
    "a": no amount of fuel gives a result, returned or raised. *)
Lemma create_chunks_no_guard :
  chunk_size (document_store (Scripted.with_parameters 200 200))
    <= chunk_overlap (document_store (Scripted.with_parameters 200 200)) /\
  ~ exists fuel outcome,
      _create_chunks fuel (lit "a") (Scripted.with_parameters 200 200) = Some outcome.
Proof.
  split; [by vm_compute|].
  intros (fuel & outcome & Hrun).
  rewrite _create_chunks_unfold in Hrun.
  rewrite loop_diverges in Hrun; [done | simpl; lia | by vm_compute].
Qed.

(** * The document store *)

Section Store.
Context `{RT : Runtime}.
Implicit Types (h : heap) (text : str).

Lemma _generate_embedding_run text h :
  _generate_embedding text h =
  Some ((embeddings_create text (ext h)).1,
        set_ext (embeddings_create text (ext h)).2 h).
Proof.
  unfold _generate_embedding, try_except, raise.
  by destruct (embeddings_create text (ext h)) as [[e|x] w].
Qed.

Lemma _generate_embedding_store text h r h' :
  _generate_embedding text h = Some (r, h') ->
  document_store h' = document_store h.
Proof. rewrite _generate_embedding_run. by intros [= _ <-]. Qed.

(** The loop of [add_document] stores one entry per embedded chunk and stops
    at the first failure of the provider. *)
Lemma add_loop_run filename chunks h :
  for_ chunks (fun chunk =>
    embedding <- _generate_embedding chunk ;;
    documents_append (stored filename chunk embedding)) h =
  Some (outcome (embed_run chunks (ext h)).1.2,
        set_documents
          (documents (document_store h)
             ++ zip_with (stored filename) chunks (embed_run chunks (ext h)).1.1)
          (set_ext (embed_run chunks (ext h)).2 h)).
Proof.
  revert h. induction chunks as [|chunk chunks IH]; intros h.
  - simpl. unfold ret, set_documents, set_ext. rewrite app_nil_r.
    by destruct h as [w [ds size overlap]].
  - simpl. unfold bind at 1. unfold bind at 1.
    rewrite _generate_embedding_run.
    destruct (embeddings_create chunk (ext h)) as [[e|x] w'] eqn:Hcall; simpl.
    + rewrite IH. simpl.
      destruct (embed_run chunks w') as [[es err] w''] eqn:Hrun. simpl.
      unfold set_documents, set_ext. simpl. by rewrite <- app_assoc.
    + unfold set_documents, set_ext. simpl. rewrite app_nil_r.
      by destruct h as [w [ds size overlap]].
Qed.

Lemma add_document_run fuel content filename h chunks :
  _create_chunks fuel content h = Some (Ok chunks, h) ->
  add_document fuel content filename h =
  Some (outcome (embed_run chunks (ext h)).1.2,
        set_documents
          (documents (document_store h)
             ++ zip_with (stored filename) chunks (embed_run chunks (ext h)).1.1)
          (set_ext (embed_run chunks (ext h)).2 h)).
Proof.
  intros Hchunks. unfold add_document, bind at 1. rewrite Hchunks.
  unfold try_except.
  change (for_ chunks _ h) with
    (for_ chunks (fun chunk =>
       embedding <- _generate_embedding chunk ;;
       documents_append (stored filename chunk embedding)) h).
  rewrite add_loop_run.
  by destruct (embed_run chunks (ext h)) as [[es [x|]] w].
Qed.

Lemma add_document_out_of_fuel fuel content filename h :
  _create_chunks fuel content h = None ->
  add_document fuel content filename h = None.
Proof. intros Hchunks. unfold add_document, bind at 1. by rewrite Hchunks. Qed.

Lemma embed_run_length chunks w :
  (length (embed_run chunks w).1.1 <= length chunks)%nat.
Proof.
  revert w. induction chunks as [|chunk chunks IH]; intros w; simpl; [lia|].
  destruct (embeddings_create chunk w) as [[e|x] w']; simpl; [|lia].
  specialize (IH w'). destruct (embed_run chunks w') as [[es err] w'']. simpl in *. lia.
Qed.

Lemma embed_run_ok chunks w :
  (embed_run chunks w).1.2 = None ->
  length (embed_run chunks w).1.1 = length chunks.
Proof.
  revert w. induction chunks as [|chunk chunks IH]; intros w; simpl; [done|].
  destruct (embeddings_create chunk w) as [[e|x] w']; simpl; [|done].
  specialize (IH w'). destruct (embed_run chunks w') as [[es err] w'']. simpl in *.
  intros Herr. by rewrite IH.
Qed.

(** A run that embeds [embedded] and then fails on [failed]. *)
Lemma embed_run_fails embedded failed rest w es w1 x w2 :
  embed_run embedded w = (es, None, w1) ->
  embeddings_create failed w1 = (Raise x, w2) ->
  embed_run (embedded ++ failed :: rest) w = (es, Some x, w2) /\
  length es = length embedded.
Proof.
  revert w es. induction embedded as [|chunk embedded IH]; intros w es Hrun Hfail.
  - simpl in *. injection Hrun as <- <-. by rewrite Hfail.
  - simpl in *. destruct (embeddings_create chunk w) as [[e|y] w'] eqn:Hcall; [|done].
    destruct (embed_run embedded w') as [[es' err] w''] eqn:Hrun'.
    injection Hrun as <- -> ->.
    destruct (IH w' es' Hrun' Hfail) as [-> Hlen]. simpl. by rewrite Hlen.
Qed.

Lemma zip_with_stored_app filename embedded rest (es : list (list pyfloat)) :
  length es = length embedded ->
  zip_with (stored filename) (embedded ++ rest) es
  = zip_with (stored filename) embedded es.
Proof.
  revert es. induction embedded as [|c embedded IH]; intros [|e es] Hlen;
    simpl in *; try done.
  - by destruct rest.
  - f_equal. apply IH. lia.
Qed.

Lemma content_zip_with_stored filename chunks (es : list (list pyfloat)) :
  length es = length chunks ->
  map content (zip_with (stored filename) chunks es) = chunks.
Proof.
  revert es. induction chunks as [|c chunks IH]; intros [|e es] Hlen;
    simpl in *; try done.
  f_equal. apply IH. lia.
Qed.

(** C7: when the provider embeds the first chunks of a document and then
    fails on the next one, [add_document] raises that error and leaves in the
    store exactly the entries of the chunks embedded before the failure. *)
Theorem add_document_not_atomic fuel text filename h
    chunks embedded failed rest es w1 x w2 :
  _create_chunks fuel text h = Some (Ok chunks, h) ->
  chunks = embedded ++ failed :: rest ->
  embed_run embedded (ext h) = (es, None, w1) ->
  embeddings_create failed w1 = (Raise x, w2) ->
  add_document fuel text filename h =
    Some (Raise x,
          set_documents
            (documents (document_store h) ++ zip_with (stored filename) embedded es)
            (set_ext w2 h)) /\
  length (zip_with (stored filename) embedded es) = length embedded /\
  map content (zip_with (stored filename) embedded es) = embedded.
Proof.
  intros Hchunks -> Hrun Hfail.
  destruct (embed_run_fails _ _ rest _ _ _ _ _ Hrun Hfail) as [Hall Hlen].
  split; [|split].
  - rewrite (add_document_run _ _ _ _ _ Hchunks), Hall. simpl.
    by rewrite zip_with_stored_app.
  - rewrite length_zip_with. lia.
  - by apply content_zip_with_stored.
Qed.

End Store.

Lemma add_document_not_atomic_witness :
  add_document 4 (Scripted.a_text 2000) (lit "plan.txt") (Scripted.fresh 2) =
  Some (Raise ProviderError,
        set_documents
          [stored (lit "plan.txt") (Scripted.a_text 1000) (Scripted.answer 1000);
           stored (lit "plan.txt") (Scripted.a_text 1000) (Scripted.answer 1000)]
          (Scripted.fresh 0)).
Proof.
  refine (proj1 (add_document_not_atomic 4 (Scripted.a_text 2000) (lit "plan.txt")
           (Scripted.fresh 2)
           [Scripted.a_text 1000; Scripted.a_text 1000; Scripted.a_text 400]
           [Scripted.a_text 1000; Scripted.a_text 1000] (Scripted.a_text 400) []
           [Scripted.answer 1000; Scripted.answer 1000] O ProviderError O
           _ _ _ _));
    vm_compute; reflexivity.
Defined.

(** * Retrieval *)

Section Sorting.
Context `{RT : Runtime}.
Implicit Types (x y : pyfloat * str) (l : list (pyfloat * str)).

Lemma insert_desc_perm x l : insert_desc x l ≡ₚ x :: l.
Proof.
  induction l as [|y l IH]; simpl; [done|].
  destruct (tuple_ltb x y); [|done].
  rewrite IH. apply perm_swap.
Qed.

Lemma sort_reverse_perm l : sort_reverse l ≡ₚ l.
Proof.
  induction l as [|x l IH]; simpl; [done|].
  by rewrite insert_desc_perm, IH.
Qed.

Context `{FO : !FloatOrder}.

Lemma tuple_ltb_true x y : tuple_ltb x y = true -> float_ltb y.1 x.1 = false.
Proof.
  unfold tuple_ltb. destruct (float_eqb x.1 y.1) eqn:Heq.
  - intros _. by apply float_eqb_incomparable in Heq as [_ ?].
  - apply float_ltb_asym.
Qed.

Lemma tuple_ltb_false x y : tuple_ltb x y = false -> float_ltb x.1 y.1 = false.
Proof.
  unfold tuple_ltb. destruct (float_eqb x.1 y.1) eqn:Heq; [|done].
  intros _. by apply float_eqb_incomparable in Heq as [? _].
Qed.

Lemma insert_desc_sorted x l :
  StronglySorted (fun a b => float_ltb a.1 b.1 = false) l ->
  StronglySorted (fun a b => float_ltb a.1 b.1 = false) (insert_desc x l).
Proof.
  induction 1 as [|y l Hsorted IH Hall]; simpl.
  - repeat constructor.
  - destruct (tuple_ltb x y) eqn:Hlt.
    + constructor; [done|].
      rewrite insert_desc_perm. constructor; [|done].
      by apply tuple_ltb_true.
    + apply tuple_ltb_false in Hlt.
      constructor; [by constructor|].
      constructor; [done|].
      eapply Forall_impl; [exact Hall|].
      intros z Hz. by apply (float_ltb_negtrans _ y.1).
Qed.

Lemma sort_reverse_sorted l :
  StronglySorted (fun a b => float_ltb a.1 b.1 = false) (sort_reverse l).
Proof.
  induction l as [|x l IH]; simpl; [constructor|].
  by apply insert_desc_sorted.
Qed.

Lemma StronglySorted_take {A} (R : A -> A -> Prop) (l : list A) n :
  StronglySorted R l -> StronglySorted R (take n l).
Proof.
  intros Hsorted. revert n.
  induction Hsorted as [|a l Hsorted IH Hall]; intros [|n]; simpl;
    try constructor; [apply IH|].
  by apply Forall_take.
Qed.

Lemma StronglySorted_map {A B} (f : A -> B) (R : B -> B -> Prop) (l : list A) :
  StronglySorted (fun a b => R (f a) (f b)) l -> StronglySorted R (map f l).
Proof.
  induction 1 as [|a l _ IH Hall]; simpl; [constructor|].
  constructor; [done|]. clear IH.
  induction Hall; simpl; by constructor.
Qed.

End Sorting.

Section Retrieval.
Context `{RT : Runtime}.
Implicit Types (h : heap) (docs : list StoredChunk).

Lemma Forall2_perm_r {A B} (R : A -> B -> Prop) (l : list A) (k k' : list B) :
  Forall2 R l k -> k ≡ₚ k' -> exists l', l ≡ₚ l' /\ Forall2 R l' k'.
Proof.
  intros HF Hperm. revert l HF.
  induction Hperm as [|y k k' _ IH|y z k|k k' k'' _ IH1 _ IH2]; intros l HF.
  - exists l. split; [done|exact HF].
  - apply Forall2_cons_inv_r in HF as (x & l0 & Hxy & HF & ->).
    destruct (IH l0 HF) as (l' & Hl' & HF').
    exists (x :: l'). split; [by constructor|by constructor].
  - apply Forall2_cons_inv_r in HF as (x & l0 & Hxy & HF & ->).
    apply Forall2_cons_inv_r in HF as (x' & l1 & Hxz & HF & ->).
    exists (x' :: x :: l1). split; [apply perm_swap|by repeat constructor].
  - destruct (IH1 l HF) as (l' & Hl' & HF').
    destruct (IH2 l' HF') as (l'' & Hl'' & HF'').
    exists l''. split; [by etrans|done].
Qed.

Lemma bind_call {A B} (r : result A) (k : A -> M B) h :
  bind (call r) k h =
  match r with
  | Ok a => k a h
  | Raise e => Some (Raise e, h)
  end.
Proof. by destruct r. Qed.

(** The similarity loop either fails on some document or pairs every
    document, in order, with its similarity and its content. *)
Lemma similarities_loop_run q docs acc h :
  (exists e, similarities_loop q docs acc h = Some (Raise e, h)) \/
  (exists scored,
     similarities_loop q docs acc h = Some (Ok (acc ++ scored), h) /\
     Forall2 (fun d p => cosine_similarity q (embedding d) = Ok p.1 /\ p.2 = content d)
       docs scored).
Proof.
  revert acc. induction docs as [|doc docs IH]; intros acc; simpl.
  - right. exists []. split; [by rewrite app_nil_r|constructor].
  - rewrite bind_call.
    destruct (cosine_similarity q (embedding doc)) as [s|e] eqn:Hsim.
    + destruct (IH (acc ++ [(s, content doc)])) as [[e He]|(scored & Hrun & HF)].
      * left. by exists e.
      * right. exists ((s, content doc) :: scored). split.
        -- by rewrite Hrun, <- app_assoc.
        -- by constructor.
    + left. by exists e.
Qed.

(** The body of [get_relevant_chunks], step by step. *)
Lemma get_relevant_chunks_run query top_k h :
  get_relevant_chunks query top_k h =
  match documents (document_store h) with
  | [] => Some (Ok [], h)
  | _ :: _ =>
      match embeddings_create query (ext h) with
      | (Ok q, w) =>
          match similarities_loop q (documents (document_store h)) [] (set_ext w h) with
          | Some (Ok similarities, h') =>
              Some (Ok (map snd (py_slice (sort_reverse similarities) 0 top_k)), h')
          | Some (Raise _, h') => Some (Ok [], h')
          | None => None
          end
      | (Raise _, w) => Some (Ok [], set_ext w h)
      end
  end.
Proof.
  unfold get_relevant_chunks, bind, self, try_except, ret.
  destruct (documents (document_store h)) as [|doc docs] eqn:Hdocs; [done|].
  rewrite _generate_embedding_run.
  destruct (embeddings_create query (ext h)) as [[q|e] w]; cbn [fst snd]; [|done].
  change (document_store (set_ext w h)) with (document_store h).
  rewrite Hdocs.
  by destruct (similarities_loop q (doc :: docs) [] (set_ext w h)) as [[[?|?] ?]|].
Qed.

(** [get_relevant_chunks] never raises and never changes the store. *)
Lemma get_relevant_chunks_returns query top_k h :
  exists contents h',
    get_relevant_chunks query top_k h = Some (Ok contents, h') /\
    document_store h' = document_store h.
Proof.
  rewrite get_relevant_chunks_run.
  destruct (documents (document_store h)) as [|doc docs] eqn:Hdocs.
  - by exists [], h.
  - destruct (embeddings_create query (ext h)) as [[q|e] w].
    + destruct (similarities_loop_run q (doc :: docs) [] (set_ext w h))
        as [[e He]|(scored & He & _)]; rewrite He.
      * by exists [], (set_ext w h).
      * by eexists _, (set_ext w h).
    + by exists [], (set_ext w h).
Qed.

Context `{FO : !FloatOrder}.

(** C5: when embedding the query succeeds and top_k >= 0, the result is the
    contents of at most top_k stored chunks whose similarities to the query
    embedding are non-increasing along the result. *)
Theorem get_relevant_chunks_top_k query top_k h q w :
  0 <= top_k ->
  embeddings_create query (ext h) = (Ok q, w) ->
  exists (picked : list StoredChunk) (sims : list pyfloat) h',
    get_relevant_chunks query top_k h = Some (Ok (map content picked), h') /\
    len picked <= top_k /\
    picked ⊆+ documents (document_store h) /\
    Forall2 (fun d s => cosine_similarity q (embedding d) = Ok s) picked sims /\
    StronglySorted (fun a b => float_ltb a b = false) sims.
Proof.
  intros Hk Hcall. rewrite get_relevant_chunks_run, Hcall.
  destruct (documents (document_store h)) as [|doc docs] eqn:Hdocs.
  { exists [], [], h. repeat split; try constructor. unfold len. simpl. lia. }
  destruct (similarities_loop_run q (doc :: docs) [] (set_ext w h))
    as [[e He]|(scored & He & HF)]; rewrite He.
  { exists [], [], (set_ext w h). repeat split; try constructor.
    - unfold len. simpl. lia.
    - apply submseteq_nil_l. }
  rewrite app_nil_l.
  destruct (Forall2_perm_r _ _ _ (sort_reverse scored) HF) as (docs' & Hperm & HF').
  { symmetry. apply sort_reverse_perm. }
  set (n := Z.to_nat top_k).
  exists (take n docs'), (map fst (take n (sort_reverse scored))), (set_ext w h).
  rewrite py_slice_prefix by done. fold n.
  apply (Forall2_take _ _ _ n) in HF'.
  repeat split.
  - do 3 f_equal. clear -HF'.
    induction HF' as [|d p l k [_ Hp] _ IH]; simpl; [done|]. by rewrite Hp, IH.
  - unfold len. rewrite length_take. lia.
  - rewrite Hperm. apply submseteq_take.
  - clear -HF'.
    induction HF' as [|d p l k [Hp _] _ IH]; simpl; by constructor.
  - apply StronglySorted_map, StronglySorted_take, sort_reverse_sorted.
Qed.

End Retrieval.

Lemma scripted_float_order : @FloatOrder Scripted.runtime.
Proof.
  split; simpl.
  - intros a b. rewrite Z.ltb_lt, Z.ltb_ge. lia.
  - intros a b c. rewrite !Z.ltb_ge. lia.
  - intros a b. rewrite Z.eqb_eq, !Z.ltb_ge. lia.
Qed.

Example get_relevant_chunks_shelf :
  get_relevant_chunks (lit "xyz") 2 (Scripted.shelf 1)
  = Some (Ok [lit "abcd"; lit "ab"], Scripted.shelf 0).
Proof. by vm_compute. Qed.

Lemma get_relevant_chunks_top_k_witness :
  exists (picked : list StoredChunk) (sims : list pyfloat) h',
    get_relevant_chunks (lit "xyz") 2 (Scripted.shelf 1)
      = Some (Ok (map content picked), h') /\
    len picked <= 2 /\
    picked ⊆+ documents (document_store (Scripted.shelf 1)) /\
    Forall2 (fun d s => cosine_similarity (Scripted.answer 3) (embedding d) = Ok s)
      picked sims /\
    StronglySorted (fun a b => float_ltb a b = false) sims.
Proof.
  apply (@get_relevant_chunks_top_k Scripted.runtime scripted_float_order
           (lit "xyz") 2 (Scripted.shelf 1) (Scripted.answer 3) O);
    [lia | reflexivity].
Defined.

(** * The store only grows *)

Section Growth.
Context `{RT : Runtime}.
Implicit Types (h : heap) (text : str).

Lemma grows_ret {A} (a : A) : grows (ret a).
Proof. intros h r h' [= _ <-]. done. Qed.

Lemma grows_raise {A} (e : exn) : grows (@raise _ A e).
Proof. intros h r h' [= _ <-]. done. Qed.

Lemma grows_call {A} (c : result A) : grows (call c).
Proof. intros h r h' [= _ <-]. done. Qed.

Lemma grows_self : grows self.
Proof. intros h r h' [= _ <-]. done. Qed.

Lemma grows_out_of_fuel {A} : grows (@out_of_fuel _ A).
Proof. intros h r h' [=]. Qed.

Lemma grows_bind {A B} (m : M A) (k : A -> M B) :
  grows m -> (forall a, grows (k a)) -> grows (bind m k).
Proof.
  intros Hm Hk h r h'. unfold bind.
  destruct (m h) as [[[a|e] h1]|] eqn:Hrun; [| |done].
  - intros Hrun'. etrans; [by eapply Hm|by eapply Hk].
  - intros [= _ <-]. by eapply Hm.
Qed.

Lemma grows_try_except {A} (body : M A) (handler : exn -> M A) :
  grows body -> (forall e, grows (handler e)) -> grows (try_except body handler).
Proof.
  intros Hbody Hhandler h r h'. unfold try_except.
  destruct (body h) as [[[a|e] h1]|] eqn:Hrun; [| |done].
  - intros [= _ <-]. by eapply Hbody.
  - intros Hrun'. etrans; [by eapply Hbody|by eapply Hhandler].
Qed.

Lemma grows_for_ {A} (xs : list A) (body : A -> M unit) :
  (forall x, grows (body x)) -> grows (for_ xs body).
Proof.
  intros Hbody. induction xs as [|x xs IH]; simpl.
  - apply grows_ret.
  - apply grows_bind; [apply Hbody|done].
Qed.

Lemma grows_documents_append d : grows (documents_append d).
Proof. intros h r h' [= _ <-]. simpl. by apply prefix_app_r. Qed.

Lemma grows_generate_embedding text : grows (_generate_embedding text).
Proof.
  intros h r h' Hrun. by rewrite (_generate_embedding_store _ _ _ _ Hrun).
Qed.

Lemma grows_create_chunks fuel text : grows (_create_chunks fuel text).
Proof.
  intros h r h' Hrun. by apply _create_chunks_returns in Hrun as (_ & _ & ->).
Qed.

Create HintDb grows.
#[local] Hint Resolve grows_ret grows_raise grows_call grows_self grows_out_of_fuel
  grows_documents_append grows_generate_embedding grows_create_chunks : grows.
#[local] Hint Extern 2 (grows (bind _ _)) => apply grows_bind; [|intros ?] : grows.
#[local] Hint Extern 2 (grows (try_except _ _)) =>
  apply grows_try_except; [|intros ?] : grows.
#[local] Hint Extern 2 (grows (for_ _ _)) => apply grows_for_; intros ? : grows.

Lemma grows_add_document fuel text name : grows (add_document fuel text name).
Proof. unfold add_document. auto 10 with grows. Qed.

Lemma grows_similarities_loop q docs acc : grows (similarities_loop q docs acc).
Proof.
  revert acc. induction docs as [|doc docs IH]; intros acc; simpl;
    auto with grows.
Qed.

Lemma grows_get_relevant_chunks query top_k : grows (get_relevant_chunks query top_k).
Proof.
  intros h r h' Hrun.
  destruct (get_relevant_chunks_returns query top_k h) as (c & h1 & Hrun' & Hstore).
  rewrite Hrun' in Hrun. injection Hrun as _ <-. by rewrite Hstore.
Qed.

Lemma grows_extract_text_from_file file_content name :
  grows (extract_text_from_file file_content name).
Proof.
  unfold extract_text_from_file.
  apply grows_try_except; [|auto with grows].
  destruct (endswith name (lit ".txt")); simpl; [auto with grows|].
  destruct TEXTRACT_AVAILABLE; [|auto with grows].
  apply grows_bind; [|auto with grows].
  intros h r h'. destruct (textract_process file_content name (ext h)).
  by intros [= _ <-].
Qed.

Lemma grows_upload_one fuel file : grows (upload_one fuel file).
Proof.
  unfold upload_one. destruct (negb _); [auto with grows|].
  apply grows_try_except; [|auto with grows].
  apply grows_bind; [apply grows_extract_text_from_file|].
  intros a. apply grows_add_document.
Qed.

Lemma grows_upload_files fuel files : grows (upload_files fuel files).
Proof.
  unfold upload_files. destruct files as [|file files]; [auto with grows|].
  destruct (len (file :: files) >? 5); [auto with grows|].
  apply grows_try_except; [|auto with grows].
  apply grows_bind; [|auto with grows].
  apply grows_for_. apply grows_upload_one.
Qed.

Lemma grows_health_check : grows health_check.
Proof. unfold health_check. auto with grows. Qed.

(** [add_document] ends whenever the chunker does. *)
Lemma add_document_total fuel text name h :
  chunk_overlap (document_store h) < chunk_size (document_store h) ->
  (length text < fuel)%nat ->
  exists r h', add_document fuel text name h = Some (r, h').
Proof.
  intros Hstep Hfuel.
  destruct (_create_chunks_total text h Hstep) as (chunks & Hchunks).
  rewrite (add_document_run _ _ _ _ _ (Hchunks fuel Hfuel)). by eexists _, _.
Qed.

(** C9: the documents of the store only grow.  After [add_document],
    however it ends, the documents it started from are a prefix of the
    documents it leaves, and it does end when chunk_overlap < chunk_size;
    [get_relevant_chunks] always ends and leaves the documents as they
    were.  The two endpoints that reach the store, [upload_files] and
    [health_check], only append as well. *)
Theorem documents_grow fuel text name query top_k files h :
  grows (add_document fuel text name) /\
  (chunk_overlap (document_store h) < chunk_size (document_store h) ->
   (length text < fuel)%nat ->
   exists r h', add_document fuel text name h = Some (r, h') /\
     documents (document_store h) `prefix_of` documents (document_store h')) /\
  (exists r h', get_relevant_chunks query top_k h = Some (r, h') /\
     documents (document_store h') = documents (document_store h)) /\
  grows (get_relevant_chunks query top_k) /\
  grows (upload_files fuel files) /\
  grows health_check.
Proof.
  split; [apply grows_add_document|]. split; [|split].
  - intros Hstep Hfuel.
    destruct (add_document_total fuel text name h Hstep Hfuel) as (r & h' & Hrun).
    exists r, h'. split; [done|]. by eapply grows_add_document.
  - destruct (get_relevant_chunks_returns query top_k h) as (c & h' & Hrun & Hstore).
    exists (Ok c), h'. by rewrite Hstore.
  - auto using grows_get_relevant_chunks, grows_upload_files, grows_health_check.
Qed.

(** C10: [health_check] reports the number of entries of [documents], and a
    successful [add_document] adds one entry per chunk of the text, so the
    count is a count of chunks. *)
Theorem health_check_counts_chunks h :
  health_check h =
    Some (Ok {| health_status := lit "healthy";
                document_count := len (documents (document_store h));
                health_textract_available := TEXTRACT_AVAILABLE |}, h) /\
  (forall fuel text name chunks h',
     _create_chunks fuel text h = Some (Ok chunks, h) ->
     add_document fuel text name h = Some (Ok tt, h') ->
     exists response,
       health_check h' = Some (Ok response, h') /\
       document_count response = len (documents (document_store h)) + len chunks).
Proof.
  split; [done|].
  intros fuel text name chunks h' Hchunks.
  rewrite (add_document_run _ _ _ _ _ Hchunks).
  pose proof (embed_run_ok chunks (ext h)) as Hlen.
  destruct (embed_run chunks (ext h)) as [[es [x|]] w]; simpl in *; [done|].
  intros [= <-]. eexists. split; [reflexivity|]. simpl.
  unfold len. rewrite length_app, length_zip_with, Hlen by done. lia.
Qed.

End Growth.

Lemma documents_grow_witness :
  exists r h',
    add_document 2501 (Scripted.a_text 2500) (lit "plan.txt") (Scripted.shelf 2)
      = Some (r, h') /\
    documents (document_store (Scripted.shelf 2)) `prefix_of`
      documents (document_store h').
Proof.
  apply (proj1 (proj2 (documents_grow 2501 (Scripted.a_text 2500) (lit "plan.txt")
                         (lit "xyz") 3 [] (Scripted.shelf 2)))).
  - simpl. lia.
  - unfold Scripted.a_text. rewrite repeat_length. lia.
Defined.

Lemma health_check_counts_chunks_witness :
  exists response,
    health_check
      (set_documents
         (zip_with (stored (lit "plan.txt"))
            [py_slice (Scripted.a_text 2500) 0 1000;
             py_slice (Scripted.a_text 2500) 800 1800;
             py_slice (Scripted.a_text 2500) 1600 2600;
             py_slice (Scripted.a_text 2500) 2400 3400]
            [Scripted.answer 1000; Scripted.answer 1000;
             Scripted.answer 900; Scripted.answer 100])
         (Scripted.fresh 6))
    = Some (Ok response,
            set_documents
              (zip_with (stored (lit "plan.txt"))
                 [py_slice (Scripted.a_text 2500) 0 1000;
                  py_slice (Scripted.a_text 2500) 800 1800;
                  py_slice (Scripted.a_text 2500) 1600 2600;
                  py_slice (Scripted.a_text 2500) 2400 3400]
                 [Scripted.answer 1000; Scripted.answer 1000;
                  Scripted.answer 900; Scripted.answer 100])
              (Scripted.fresh 6)) /\
    document_count response = 0 + 4.
Proof.
  apply (proj2 (health_check_counts_chunks (Scripted.fresh 10))
           5%nat (Scripted.a_text 2500) (lit "plan.txt")
           [py_slice (Scripted.a_text 2500) 0 1000;
            py_slice (Scripted.a_text 2500) 800 1800;
            py_slice (Scripted.a_text 2500) 1600 2600;
            py_slice (Scripted.a_text 2500) 2400 3400]);
    vm_compute; reflexivity.
Defined.

(** One uploaded file of 2500 characters: the response counts one file, the
    health check counts four chunks. *)
Example one_file_four_chunks :
  exists h',
    upload_files 5 [Scripted.upload "plan.txt" 2500] (Scripted.fresh 10)
    = Some (Ok {| message := lit "Files uploaded successfully";
                  count := 1;
                  status := lit "success";
                  textract_available := false |}, h') /\
    health_check h'
    = Some (Ok {| health_status := lit "healthy";
                  document_count := 4;
                  health_textract_available := false |}, h').
Proof. eexists. split; vm_compute; reflexivity. Qed.

(** * POST /api/upload *)

Section Upload.
Context `{RT : Runtime}.
Implicit Types (h : heap) (file : UploadFile) (files : list UploadFile).

Lemma try_except_500 {A} (body : M A) h r h' :
  try_except body (fun _ => raise (HTTPException 500)) h = Some (r, h') ->
  (exists a, r = Ok a) \/ r = Raise (HTTPException 500).
Proof.
  unfold try_except, raise.
  destruct (body h) as [[[a|e] h1]|]; [| |done].
  - intros [= <- _]. left. by exists a.
  - intros [= <- _]. by right.
Qed.

(** C8: what [upload_files] raises.  An empty list and a list of more than
    five files give 400, before any file is looked at.  Everything raised
    while the files are processed leaves as 500, and that includes the 400
    raised for a file name without an allowed extension: a request whose
    first file has such a name gives 500, with the store untouched. *)
Theorem upload_files_status fuel files h :
  (files = [] -> upload_files fuel files h = Some (Raise (HTTPException 400), h)) /\
  (5 < len files -> upload_files fuel files h = Some (Raise (HTTPException 400), h)) /\
  (files <> [] -> len files <= 5 ->
     forall r h', upload_files fuel files h = Some (r, h') ->
       (exists response, r = Ok response) \/ r = Raise (HTTPException 500)) /\
  (forall file rest,
     files = file :: rest -> len files <= 5 ->
     endswith_any (str_lower (file_filename file)) allowed_extensions = false ->
     upload_files fuel files h = Some (Raise (HTTPException 500), h)).
Proof.
  split; [|split; [|split]].
  - by intros ->.
  - intros Hlen. destruct files as [|file rest]; [unfold len in Hlen; simpl in Hlen; lia|].
    unfold upload_files. by destruct (Z.gtb_spec (len (file :: rest)) 5); [|lia].
  - intros Hne Hlen r h'. destruct files as [|file rest]; [done|].
    unfold upload_files. destruct (Z.gtb_spec (len (file :: rest)) 5); [lia|].
    apply try_except_500.
  - intros file rest -> Hlen Hext.
    unfold upload_files. destruct (Z.gtb_spec (len (file :: rest)) 5); [lia|].
    unfold try_except, bind. simpl. unfold bind, upload_one. by rewrite Hext.
Qed.

End Upload.

Lemma upload_files_status_witness :
  upload_files 5 [Scripted.upload "report.pdf" 10] (Scripted.fresh 10)
  = Some (Raise (HTTPException 500), Scripted.fresh 10).
Proof.
  apply (proj2 (proj2 (proj2
           (upload_files_status 5 [Scripted.upload "report.pdf" 10] (Scripted.fresh 10))))
           (Scripted.upload "report.pdf" 10) []);
    [reflexivity | vm_compute; discriminate | vm_compute; reflexivity].
Defined.

(** * More on the chunker: the windows it cuts *)

Section Windows.
Context `{RT : Runtime}.
Implicit Types (text : str) (h : heap).

Lemma window_count_spec (step n : Z) (i : nat) :
  0 < step -> 0 <= n ->
  Z.of_nat i * step < n <-> (i < Z.to_nat ((n + step - 1) / step))%nat.
Proof.
  intros Hstep Hn.
  pose proof (Z.mul_div_le (n + step - 1) step Hstep) as Hlo.
  pose proof (Z.mul_succ_div_gt (n + step - 1) step Hstep) as Hhi.
  assert (0 <= (n + step - 1) / step) as Hq by (apply Z.div_pos; lia).
  split; intros Hi.
  - apply Nat2Z.inj_lt. rewrite Z2Nat.id by done. nia.
  - apply Nat2Z.inj_lt in Hi. rewrite Z2Nat.id in Hi by done. nia.
Qed.

(** From its [i]-th iteration on, the loop appends the windows [i], [i+1],
    ... up to the window count. *)
Lemma loop_windows fuel size overlap text (i : nat) chunks :
  overlap < size ->
  (Z.to_nat (len text - Z.of_nat i * (size - overlap)) < fuel)%nat ->
  _create_chunks_loop fuel size overlap text (Z.of_nat i * (size - overlap)) chunks
  = Some (chunks ++ map (window size overlap text)
                      (seq i (window_count size overlap (len text) - i))).
Proof.
  intros Hstep. revert i chunks.
  induction fuel as [|fuel IH]; intros i chunks Hfuel; [lia|].
  assert (0 <= len text) as Hlen by (unfold len; lia).
  pose proof (window_count_spec (size - overlap) (len text) i) as Hspec.
  destruct (Z_lt_le_dec (Z.of_nat i * (size - overlap)) (len text)) as [Hlt|Hge].
  - rewrite (loop_step_lt _ _ _ _ _ _ (Z.of_nat i * (size - overlap) + size)
               (Z.of_nat (S i) * (size - overlap))) by lia.
    rewrite IH by lia.
    apply Hspec in Hlt; [|lia|lia]. unfold window_count.
    replace (Z.to_nat ((len text + (size - overlap) - 1) / (size - overlap)) - i)%nat
      with (S (Z.to_nat ((len text + (size - overlap) - 1) / (size - overlap)) - S i))
      by lia.
    simpl seq. simpl map. by rewrite <- app_assoc.
  - rewrite loop_step_ge by lia.
    assert (~ (i < window_count size overlap (len text))%nat) as Hn.
    { unfold window_count. rewrite <- Hspec; lia. }
    replace (window_count size overlap (len text) - i)%nat with O by lia.
    simpl. by rewrite app_nil_r.
Qed.

(** With a positive step, any fuel above the length of the text gives the
    windows at the multiples of the step. *)
Lemma create_chunks_windows_run text h fuel :
  chunk_overlap (document_store h) < chunk_size (document_store h) ->
  (length text < fuel)%nat ->
  _create_chunks fuel text h =
  Some (Ok (map (window (chunk_size (document_store h))
                   (chunk_overlap (document_store h)) text)
              (seq 0 (window_count (chunk_size (document_store h))
                        (chunk_overlap (document_store h)) (len text)))), h).
Proof.
  intros Hstep Hfuel. rewrite _create_chunks_unfold.
  pose proof (loop_windows fuel (chunk_size (document_store h))
                (chunk_overlap (document_store h)) text O [] Hstep) as Hrun.
  change (Z.of_nat 0 * _) with 0 in Hrun.
  rewrite Hrun; [|unfold len; lia].
  by rewrite Nat.sub_0_r.
Qed.

(** X1: with a positive step the chunks are the windows at the multiples of
    the step, in order, one for every multiple below the length of the
    text: the [i]-th chunk is [text[i*step : i*step + chunk_size]]. *)
Theorem create_chunks_windows text h fuel chunks :
  chunk_overlap (document_store h) < chunk_size (document_store h) ->
  _create_chunks fuel text h = Some (Ok chunks, h) ->
  chunks =
    map (window (chunk_size (document_store h)) (chunk_overlap (document_store h)) text)
      (seq 0 (window_count (chunk_size (document_store h))
                (chunk_overlap (document_store h)) (len text))) /\
  forall i : nat,
    Z.of_nat i * (chunk_size (document_store h) - chunk_overlap (document_store h))
      < len text ->
    chunks !! i =
      Some (py_slice text
              (Z.of_nat i * (chunk_size (document_store h)
                             - chunk_overlap (document_store h)))
              (Z.of_nat i * (chunk_size (document_store h)
                             - chunk_overlap (document_store h))
               + chunk_size (document_store h))).
Proof.
  intros Hstep Hrun.
  pose proof (create_chunks_windows_run text h (S (length text)) Hstep
                (Nat.lt_succ_diag_r _)) as Hall.
  pose proof (_create_chunks_deterministic _ _ _ _ _ _ Hrun Hall) as [= ->].
  split; [done|]. intros i Hi.
  apply list_lookup_fmap_Some. exists i. split; [done|].
  apply lookup_seq. split; [done|].
  unfold window_count. apply window_count_spec; [lia | unfold len; lia | done].
Qed.

(** X2: with a positive step and a positive chunk size, there are as many
    chunks as the length of the text divided by the step, rounded up, and
    every chunk is non-empty and at most [chunk_size] characters long. *)
Theorem create_chunks_bounds text h fuel chunks :
  0 < chunk_size (document_store h) ->
  chunk_overlap (document_store h) < chunk_size (document_store h) ->
  _create_chunks fuel text h = Some (Ok chunks, h) ->
  len chunks =
    (len text + (chunk_size (document_store h) - chunk_overlap (document_store h)) - 1)
    / (chunk_size (document_store h) - chunk_overlap (document_store h)) /\
  Forall (fun chunk => 0 < len chunk <= chunk_size (document_store h)) chunks.
Proof.
  set (size := chunk_size (document_store h)).
  set (overlap := chunk_overlap (document_store h)).
  intros Hsize Hstep Hrun.
  pose proof (create_chunks_windows_run text h (S (length text)) Hstep
                (Nat.lt_succ_diag_r _)) as Hall.
  pose proof (_create_chunks_deterministic _ _ _ _ _ _ Hrun Hall) as [= ->].
  fold size overlap. assert (0 <= len text) as Hlen by (unfold len; lia).
  split.
  - unfold len at 1. rewrite length_map, length_seq. unfold window_count.
    rewrite Z2Nat.id; [done|]. apply Z.div_pos; lia.
  - apply Forall_forall. intros chunk Hin.
    apply list_elem_of_fmap in Hin as (i & -> & Hi). apply elem_of_seq in Hi.
    assert (Z.of_nat i * (size - overlap) < len text) as Hlt.
    { apply window_count_spec; [lia | lia |]. unfold window_count in Hi. lia. }
    unfold window. rewrite py_slice_length by nia. nia.
Qed.

(** X3: for 0 <= chunk_overlap < chunk_size, what is left of a chunk after
    its first step characters is the beginning of the next chunk, and this
    shared part has chunk_overlap characters unless the text ends before. *)
Theorem create_chunks_overlap text h fuel chunks (i : nat) c c' :
  0 <= chunk_overlap (document_store h) < chunk_size (document_store h) ->
  _create_chunks fuel text h = Some (Ok chunks, h) ->
  chunks !! i = Some c ->
  chunks !! S i = Some c' ->
  drop (Z.to_nat (chunk_size (document_store h) - chunk_overlap (document_store h))) c
    = take (Z.to_nat (chunk_overlap (document_store h))) c' /\
  len (take (Z.to_nat (chunk_overlap (document_store h))) c')
    = Z.min (chunk_overlap (document_store h))
        (len text - Z.of_nat (S i)
                    * (chunk_size (document_store h) - chunk_overlap (document_store h))).
Proof.
  set (size := chunk_size (document_store h)).
  set (overlap := chunk_overlap (document_store h)).
  intros Hpar Hrun Hc Hc'.
  assert (overlap < size) as Hstep by lia.
  pose proof (create_chunks_windows_run text h (S (length text)) Hstep
                (Nat.lt_succ_diag_r _)) as Hall.
  pose proof (_create_chunks_deterministic _ _ _ _ _ _ Hrun Hall) as [= ->].
  fold size overlap in Hc, Hc'.
  apply list_lookup_fmap_Some in Hc as (j & -> & Hj).
  apply list_lookup_fmap_Some in Hc' as (j' & -> & Hj').
  apply lookup_seq in Hj as [-> _]. apply lookup_seq in Hj' as [-> Hlt].
  simpl in *.
  assert (Z.of_nat (S i) * (size - overlap) < len text) as Hin.
  { apply window_count_spec; [lia | unfold len; lia |]. unfold window_count in Hlt. lia. }
  unfold window. rewrite !py_slice_nonneg by nia.
  set (step := Z.to_nat (size - overlap)).
  replace (Z.to_nat (Z.of_nat i * (size - overlap) + size)
           - Z.to_nat (Z.of_nat i * (size - overlap)))%nat
    with (step + Z.to_nat overlap)%nat by (unfold step; nia).
  replace (Z.to_nat (Z.of_nat (S i) * (size - overlap) + size)
           - Z.to_nat (Z.of_nat (S i) * (size - overlap)))%nat
    with (step + Z.to_nat overlap)%nat by (unfold step; nia).
  replace (Z.to_nat (Z.of_nat (S i) * (size - overlap)))
    with (Z.to_nat (Z.of_nat i * (size - overlap)) + step)%nat by (unfold step; nia).
  rewrite <- take_drop_commute, drop_drop, take_take.
  replace (Z.to_nat overlap `min` (step + Z.to_nat overlap))%nat
    with (Z.to_nat overlap) by lia.
  split; [done|].
  unfold len in *. rewrite length_take, length_drop. unfold step. nia.
Qed.

End Windows.

Lemma create_chunks_windows_witness :
  [lit "hell"; lit "lo w"; lit "worl"; lit "ld"]
  = map (window 4 1 (lit "hello world")) (seq 0 (window_count 4 1 11)) /\
  [lit "hell"; lit "lo w"; lit "worl"; lit "ld"] !! 3%nat
  = Some (py_slice (lit "hello world") (3 * (4 - 1)) (3 * (4 - 1) + 4)).
Proof.
  destruct (create_chunks_windows (lit "hello world") (Scripted.with_parameters 4 1) 12
              [lit "hell"; lit "lo w"; lit "worl"; lit "ld"])
    as [Hall Hith]; [simpl; lia | reflexivity |].
  split; [exact Hall|]. apply (Hith 3%nat). vm_compute. reflexivity.
Defined.

Lemma create_chunks_bounds_witness :
  len [lit "hell"; lit "lo w"; lit "worl"; lit "ld"] = (11 + (4 - 1) - 1) / (4 - 1) /\
  Forall (fun chunk : str => 0 < len chunk <= 4)
    [lit "hell"; lit "lo w"; lit "worl"; lit "ld"].
Proof.
  apply (create_chunks_bounds (lit "hello world") (Scripted.with_parameters 4 1) 12);
    [simpl; lia | simpl; lia | reflexivity].
Defined.

Lemma create_chunks_overlap_witness :
  drop 3 (lit "lo w") = take 1 (lit "worl") /\
  len (take 1 (lit "worl")) = Z.min 1 (11 - 2 * (4 - 1)).
Proof.
  apply (create_chunks_overlap (lit "hello world") (Scripted.with_parameters 4 1) 12
           [lit "hell"; lit "lo w"; lit "worl"; lit "ld"] 1 (lit "lo w") (lit "worl"));
    [simpl; lia | reflexivity | reflexivity | reflexivity].
Defined.

(** * More on the store *)

Section StoreMore.
Context `{RT : Runtime}.
Implicit Types (h : heap) (text : str).

Lemma set_documents_same h :
  set_documents (documents (document_store h)) (set_ext (ext h) h) = h.
Proof. by destruct h as [w [ds size overlap]]. Qed.

Lemma add_document_inv fuel text name h r h' :
  add_document fuel text name h = Some (r, h') ->
  exists chunks,
    _create_chunks fuel text h = Some (Ok chunks, h) /\
    r = outcome (embed_run chunks (ext h)).1.2 /\
    h' = set_documents
           (documents (document_store h)
              ++ zip_with (stored name) chunks (embed_run chunks (ext h)).1.1)
           (set_ext (embed_run chunks (ext h)).2 h).
Proof.
  intros Hrun.
  destruct (_create_chunks fuel text h) as [[r0 h0]|] eqn:Hchunks.
  - destruct (_create_chunks_returns _ _ _ _ _ Hchunks) as (chunks & -> & ->).
    rewrite (add_document_run _ _ _ _ _ Hchunks) in Hrun.
    injection Hrun as <- <-. by exists chunks.
  - by rewrite add_document_out_of_fuel in Hrun.
Qed.

Lemma filename_zip_with_stored name chunks (es : list (list pyfloat)) :
  Forall (fun d => filename d = name) (zip_with (stored name) chunks es).
Proof.
  revert es. induction chunks as [|c chunks IH]; intros [|e es]; simpl;
    constructor; [done|apply IH].
Qed.

(** X4: when [add_document] returns, the provider has embedded every chunk of
    the text, and the store has gained one entry per chunk, in the order of
    the chunks, each with the chunk as content, the provider's answer as
    embedding and the file name given. *)
Theorem add_document_success fuel text name h h' :
  add_document fuel text name h = Some (Ok tt, h') ->
  exists chunks es,
    _create_chunks fuel text h = Some (Ok chunks, h) /\
    embed_run chunks (ext h) = (es, None, ext h') /\
    length es = length chunks /\
    documents (document_store h')
      = documents (document_store h) ++ zip_with (stored name) chunks es /\
    map content (zip_with (stored name) chunks es) = chunks /\
    map embedding (zip_with (stored name) chunks es) = es /\
    Forall (fun d => filename d = name) (zip_with (stored name) chunks es).
Proof.
  intros Hrun. apply add_document_inv in Hrun as (chunks & Hchunks & Hr & ->).
  pose proof (embed_run_ok chunks (ext h)) as Hlen.
  destruct (embed_run chunks (ext h)) as [[es [x|]] w] eqn:Hembed; simpl in *;
    [done|].
  specialize (Hlen eq_refl).
  exists chunks, es.
  split; [done|]. split; [done|]. split; [done|]. split; [done|].
  split; [by apply content_zip_with_stored|].
  split; [|apply filename_zip_with_stored].
  clear -Hlen. revert es Hlen.
  induction chunks as [|c chunks IH]; intros [|e es] Hlen; simpl in *; try done.
  f_equal. apply IH. lia.
Qed.

(** The chunks of a text, with the overlaps removed, are the text. *)
Lemma chunks_hold_text fuel text h chunks :
  0 <= chunk_overlap (document_store h) < chunk_size (document_store h) ->
  _create_chunks fuel text h = Some (Ok chunks, h) ->
  remove_overlaps (chunk_overlap (document_store h)) chunks = text.
Proof.
  set (size := chunk_size (document_store h)).
  set (overlap := chunk_overlap (document_store h)).
  intros Hpar Hrun. rewrite _create_chunks_unfold in Hrun. fold size overlap in Hrun.
  destruct (_create_chunks_loop fuel size overlap text 0 []) as [chunks0|] eqn:Hloop;
    [|done].
  injection Hrun as ->.
  destruct (decide (text = [])) as [->|Hne].
  - assert (_create_chunks_loop 1 size overlap [] 0 [] = Some []) as Hnil
      by (by rewrite loop_step_ge).
    by rewrite (loop_deterministic _ _ _ _ _ _ _ _ _ Hloop Hnil).
  - assert (0 < len text) by (destruct text; [done | unfold len; simpl; lia]).
    destruct (loop_reconstruct (length text) size overlap text (size - overlap)
                ([] ++ [py_slice text 0 size]) Hpar)
      as (more & Hmore & Hcat); [lia | unfold len in *; lia |].
    assert (_create_chunks_loop (S (length text)) size overlap text 0 []
            = Some (py_slice text 0 size :: more)) as Hall.
    { rewrite (loop_step_lt _ _ _ _ 0 _ size (size - overlap)) by lia. exact Hmore. }
    rewrite (loop_deterministic _ _ _ _ _ _ _ _ _ Hloop Hall).
    simpl. rewrite Hcat. rewrite py_slice_prefix by lia.
    replace (Z.to_nat (size - overlap + overlap)) with (Z.to_nat size) by lia.
    apply take_drop.
Qed.

(** X5: for 0 <= chunk_overlap < chunk_size, the entries that a successful
    [add_document] appends hold the text: their contents, with the overlaps
    removed, are the text that was added. *)
Theorem add_document_round_trip fuel text name h h' :
  0 <= chunk_overlap (document_store h) < chunk_size (document_store h) ->
  add_document fuel text name h = Some (Ok tt, h') ->
  exists new,
    documents (document_store h') = documents (document_store h) ++ new /\
    Forall (fun d => filename d = name) new /\
    remove_overlaps (chunk_overlap (document_store h)) (map content new) = text.
Proof.
  intros Hpar Hrun. apply add_document_inv in Hrun as (chunks & Hchunks & Hr & ->).
  pose proof (embed_run_ok chunks (ext h)) as Hlen.
  destruct (embed_run chunks (ext h)) as [[es [x|]] w]; simpl in *; [done|].
  exists (zip_with (stored name) chunks es).
  split; [done|]. split; [apply filename_zip_with_stored|].
  rewrite content_zip_with_stored by auto. by eapply chunks_hold_text.
Qed.

(** X6: adding an empty text stores nothing, calls nothing and succeeds. *)
Theorem add_document_empty fuel name h :
  add_document (S fuel) [] name h = Some (Ok tt, h).
Proof.
  rewrite (add_document_run _ _ _ _ []).
  - simpl. by rewrite app_nil_r, set_documents_same.
  - rewrite _create_chunks_unfold. by rewrite loop_step_ge.
Qed.

End StoreMore.

Lemma add_document_success_witness :
  exists chunks es,
    _create_chunks 4 (Scripted.a_text 2000) (Scripted.fresh 3)
      = Some (Ok chunks, Scripted.fresh 3) /\
    @embed_run Scripted.runtime chunks 3%nat = (es, None, O) /\
    length es = length chunks /\
    documents (document_store
                 (set_documents
                    [stored (lit "plan.txt") (Scripted.a_text 1000) (Scripted.answer 1000);
                     stored (lit "plan.txt") (Scripted.a_text 1000) (Scripted.answer 1000);
                     stored (lit "plan.txt") (Scripted.a_text 400) (Scripted.answer 400)]
                    (Scripted.fresh 0)))
      = [] ++ zip_with (stored (lit "plan.txt")) chunks es /\
    map content (zip_with (stored (lit "plan.txt")) chunks es) = chunks /\
    map embedding (zip_with (stored (lit "plan.txt")) chunks es) = es /\
    Forall (fun d => filename d = lit "plan.txt")
      (zip_with (stored (lit "plan.txt")) chunks es).
Proof.
  apply (add_document_success 4 (Scripted.a_text 2000) (lit "plan.txt")
           (Scripted.fresh 3)
           (set_documents
              [stored (lit "plan.txt") (Scripted.a_text 1000) (Scripted.answer 1000);
               stored (lit "plan.txt") (Scripted.a_text 1000) (Scripted.answer 1000);
               stored (lit "plan.txt") (Scripted.a_text 400) (Scripted.answer 400)]
              (Scripted.fresh 0))).
  vm_compute. reflexivity.
Defined.

Lemma add_document_round_trip_witness :
  exists new,
    documents (document_store
                 (set_documents
                    [stored (lit "plan.txt") (Scripted.a_text 1000) (Scripted.answer 1000);
                     stored (lit "plan.txt") (Scripted.a_text 1000) (Scripted.answer 1000);
                     stored (lit "plan.txt") (Scripted.a_text 400) (Scripted.answer 400)]
                    (Scripted.fresh 0)))
      = [] ++ new /\
    Forall (fun d => filename d = lit "plan.txt") new /\
    remove_overlaps 200 (map content new) = Scripted.a_text 2000.
Proof.
  apply (add_document_round_trip 4 (Scripted.a_text 2000) (lit "plan.txt")
           (Scripted.fresh 3)
           (set_documents
              [stored (lit "plan.txt") (Scripted.a_text 1000) (Scripted.answer 1000);
               stored (lit "plan.txt") (Scripted.a_text 1000) (Scripted.answer 1000);
               stored (lit "plan.txt") (Scripted.a_text 400) (Scripted.answer 400)]
              (Scripted.fresh 0))).
  - simpl. lia.
  - vm_compute. reflexivity.
Defined.

(** * More on retrieval *)

Section Strings.

Lemma str_ltb_irrefl (s : str) : str_ltb s s = false.
Proof. induction s as [|a s IH]; simpl; [done|]. by rewrite N.eqb_refl. Qed.

Lemma str_ltb_trans (a b c : str) :
  str_ltb a b = true -> str_ltb b c = true -> str_ltb a c = true.
Proof.
  revert b c. induction a as [|x a IH]; intros [|y b] [|z c]; simpl; try done.
  destruct (N.eqb_spec x y) as [->|Hxy]; destruct (N.eqb_spec y z) as [->|Hyz].
  - apply IH.
  - by intros _ Hlt.
  - destruct (N.eqb_spec x z); [congruence|]. by intros Hlt _.
  - intros H1%N.ltb_lt H2%N.ltb_lt. destruct (N.eqb_spec x z); [lia|].
    apply N.ltb_lt. lia.
Qed.

Lemma str_ltb_connected (a b : str) :
  str_ltb a b = false -> str_ltb b a = false -> a = b.
Proof.
  revert b. induction a as [|x a IH]; intros [|y b]; simpl; try done.
  rewrite (N.eqb_sym y x).
  destruct (N.eqb_spec x y) as [->|Hxy].
  - intros H1 H2. f_equal. by apply IH.
  - rewrite !N.ltb_ge. lia.
Qed.

Lemma str_ltb_negtrans (a b c : str) :
  str_ltb a b = false -> str_ltb b c = false -> str_ltb a c = false.
Proof.
  intros Hab Hbc. destruct (str_ltb a c) eqn:Hac; [|done].
  destruct (str_ltb b a) eqn:Hba.
  - by rewrite (str_ltb_trans _ _ _ Hba Hac) in Hbc.
  - rewrite (str_ltb_connected _ _ Hab Hba) in Hac. congruence.
Qed.

End Strings.

Section Slicing.
Context {A B : Type}.

Lemma py_slice_map (f : A -> B) (l : list A) (a b : Z) :
  py_slice (map f l) a b = map f (py_slice l a b).
Proof.
  unfold py_slice, len. rewrite length_map.
  by rewrite skipn_map, firstn_map.
Qed.

Lemma py_slice_sublist (l : list A) (a b : Z) : py_slice l a b `sublist_of` l.
Proof.
  unfold py_slice. etrans; [apply sublist_take|apply sublist_drop].
Qed.

Lemma py_slice_upto_length (l : list A) (k : Z) :
  len (py_slice l 0 k) = if k <? 0 then Z.max 0 (len l + k) else Z.min k (len l).
Proof.
  unfold py_slice, adjust_index, len.
  destruct (Z.ltb_spec 0 0); [lia|]. rewrite (Z.min_l 0) by lia.
  change (Z.to_nat 0) with O. rewrite drop_0, length_take.
  destruct (Z.ltb_spec k 0); lia.
Qed.

Lemma StronglySorted_drop (R : A -> A -> Prop) (l : list A) n :
  StronglySorted R l -> StronglySorted R (drop n l).
Proof.
  revert l. induction n as [|n IH]; intros l Hsorted; [done|].
  destruct l as [|a l]; [done|]. simpl. apply IH. by inversion Hsorted.
Qed.

Lemma StronglySorted_py_slice (R : A -> A -> Prop) (l : list A) (a b : Z) :
  StronglySorted R l -> StronglySorted R (py_slice l a b).
Proof.
  intros Hsorted. unfold py_slice.
  by apply StronglySorted_take, StronglySorted_drop.
Qed.

End Slicing.

Section RetrievalMore.
Context `{RT : Runtime}.
Implicit Types (h : heap) (docs : list StoredChunk).

Lemma similarities_loop_all q docs acc h :
  Forall (fun d => exists s, cosine_similarity q (embedding d) = Ok s) docs ->
  exists scored,
    similarities_loop q docs acc h = Some (Ok (acc ++ scored), h) /\
    Forall2 (fun d p => cosine_similarity q (embedding d) = Ok p.1 /\ p.2 = content d)
      docs scored.
Proof.
  intros Hall. revert acc.
  induction Hall as [|doc docs [s Hs] _ IH]; intros acc; simpl.
  - exists []. split; [by rewrite app_nil_r|constructor].
  - rewrite bind_call, Hs.
    destruct (IH (acc ++ [(s, content doc)])) as (scored & Hrun & HF).
    exists ((s, content doc) :: scored). split.
    + by rewrite Hrun, <- app_assoc.
    + by constructor.
Qed.

Lemma similarities_loop_fails q docs acc h d e :
  d ∈ docs ->
  cosine_similarity q (embedding d) = Raise e ->
  exists e', similarities_loop q docs acc h = Some (Raise e', h).
Proof.
  intros Hin Hfail.
  destruct (similarities_loop_run q docs acc h) as [He|(scored & _ & HF)]; [done|].
  apply list_elem_of_lookup in Hin as [i Hi].
  destruct (Forall2_lookup_l _ _ _ _ _ HF Hi) as (p & _ & Hp & _). congruence.
Qed.

Lemma scored_contents q docs (scored : list (pyfloat * str)) :
  Forall2 (fun d p => cosine_similarity q (embedding d) = Ok p.1 /\ p.2 = content d)
    docs scored ->
  map snd scored = map content docs.
Proof. induction 1 as [|d p l k [_ Hp] _ IH]; simpl; [done|]. by rewrite Hp, IH. Qed.

Lemma py_slice_nil {A} (a b : Z) : py_slice (@nil A) a b = [].
Proof. unfold py_slice. by rewrite drop_nil, take_nil. Qed.

(** X8: when the query is embedded and every similarity is computed, the
    number of results is top_k capped by the number of stored chunks; a
    negative top_k does not give an empty result but drops that many chunks
    from the end of the ranking. *)
Theorem get_relevant_chunks_count query top_k h q w contents h' :
  embeddings_create query (ext h) = (Ok q, w) ->
  Forall (fun d => exists s, cosine_similarity q (embedding d) = Ok s)
    (documents (document_store h)) ->
  get_relevant_chunks query top_k h = Some (Ok contents, h') ->
  len contents =
    if top_k <? 0 then Z.max 0 (len (documents (document_store h)) + top_k)
    else Z.min top_k (len (documents (document_store h))).
Proof.
  intros Hcall Hall. rewrite get_relevant_chunks_run, Hcall.
  destruct (documents (document_store h)) as [|doc docs] eqn:Hdocs.
  { intros [= <- _]. unfold len. simpl. destruct (Z.ltb_spec top_k 0); lia. }
  destruct (similarities_loop_all q (doc :: docs) [] (set_ext w h) Hall)
    as (scored & -> & HF).
  intros [= <- _]. rewrite ?app_nil_l.
  rewrite <- py_slice_map, py_slice_upto_length. unfold len.
  rewrite length_map, (Permutation_length (sort_reverse_perm scored)).
  by rewrite <- (Forall2_length _ _ _ HF).
Qed.

(** X9: whatever the query and top_k, every content returned is the content
    of a stored chunk, and no stored chunk is returned more often than it is
    stored. *)
Theorem get_relevant_chunks_stored query top_k h contents h' :
  get_relevant_chunks query top_k h = Some (Ok contents, h') ->
  contents ⊆+ map content (documents (document_store h)).
Proof.
  rewrite get_relevant_chunks_run.
  destruct (documents (document_store h)) as [|doc docs] eqn:Hdocs.
  { intros [= <- _]. done. }
  destruct (embeddings_create query (ext h)) as [[q|e] w].
  - destruct (similarities_loop_run q (doc :: docs) [] (set_ext w h))
      as [[e ->]|(scored & -> & HF)].
    + intros [= <- _]. apply submseteq_nil_l.
    + intros [= <- _]. rewrite ?app_nil_l.
      rewrite <- (scored_contents _ _ _ HF), <- py_slice_map.
      etrans; [apply sublist_submseteq, py_slice_sublist|].
      apply Permutation_submseteq, Permutation_map, sort_reverse_perm.
  - intros [= <- _]. apply submseteq_nil_l.
Qed.

(** X11: one stored chunk whose similarity cannot be computed empties the
    whole result: the exception is swallowed like a failure of the query
    embedding. *)
Theorem get_relevant_chunks_similarity_failure query top_k h q w d e :
  embeddings_create query (ext h) = (Ok q, w) ->
  d ∈ documents (document_store h) ->
  cosine_similarity q (embedding d) = Raise e ->
  get_relevant_chunks query top_k h = Some (Ok [], set_ext w h).
Proof.
  intros Hcall Hin Hfail. rewrite get_relevant_chunks_run, Hcall.
  destruct (documents (document_store h)) as [|doc docs] eqn:Hdocs.
  { by apply elem_of_nil in Hin. }
  by destruct (similarities_loop_fails q (doc :: docs) [] (set_ext w h) d e Hin Hfail)
    as [e' ->].
Qed.

Lemma str_ltb_asym (a b : str) : str_ltb a b = true -> str_ltb b a = false.
Proof.
  intros Hab. destruct (str_ltb b a) eqn:Hba; [|done].
  by rewrite <- (str_ltb_irrefl a), (str_ltb_trans _ _ _ Hab Hba).
Qed.

Lemma insert_desc_ties s0 (x : pyfloat * str) l :
  float_eqb s0 s0 = true ->
  x.1 = s0 ->
  Forall (fun p => p.1 = s0) l ->
  StronglySorted (fun a b => str_ltb a.2 b.2 = false) l ->
  StronglySorted (fun a b => str_ltb a.2 b.2 = false) (insert_desc x l).
Proof.
  intros Hrefl Hx Hall Hsorted. revert Hall.
  induction Hsorted as [|y l Hsorted IH Hy]; intros Hall; simpl.
  - repeat constructor.
  - apply Forall_cons in Hall as [Hy1 Hall].
    unfold tuple_ltb. rewrite Hx, Hy1, Hrefl.
    destruct (str_ltb x.2 y.2) eqn:Hlt.
    + constructor; [by apply IH|].
      rewrite insert_desc_perm. constructor; [by apply str_ltb_asym|done].
    + constructor; [by constructor|].
      constructor; [done|].
      eapply Forall_impl; [exact Hy|].
      intros z Hz. by apply (str_ltb_negtrans _ y.2).
Qed.

Lemma sort_reverse_ties s0 (l : list (pyfloat * str)) :
  float_eqb s0 s0 = true ->
  Forall (fun p => p.1 = s0) l ->
  StronglySorted (fun a b => str_ltb a.2 b.2 = false) (sort_reverse l).
Proof.
  intros Hrefl. induction 1 as [|x l Hx Hall IH]; simpl; [constructor|].
  apply (insert_desc_ties s0); [done | done | | done].
  by rewrite sort_reverse_perm.
Qed.

(** X10: chunks that are equally similar to the query are not returned in
    the order they were stored: when all stored chunks have the same
    similarity, the contents come back in descending lexicographic order. *)
Theorem get_relevant_chunks_ties query top_k h q w s0 contents h' :
  embeddings_create query (ext h) = (Ok q, w) ->
  float_eqb s0 s0 = true ->
  Forall (fun d => cosine_similarity q (embedding d) = Ok s0)
    (documents (document_store h)) ->
  get_relevant_chunks query top_k h = Some (Ok contents, h') ->
  StronglySorted (fun a b => str_ltb a b = false) contents.
Proof.
  intros Hcall Hrefl Hall. rewrite get_relevant_chunks_run, Hcall.
  destruct (documents (document_store h)) as [|doc docs] eqn:Hdocs.
  { intros [= <- _]. constructor. }
  destruct (similarities_loop_all q (doc :: docs) [] (set_ext w h))
    as (scored & -> & HF).
  { eapply Forall_impl; [exact Hall|]. intros d Hd. by exists s0. }
  intros [= <- _]. rewrite ?app_nil_l.
  apply StronglySorted_map, StronglySorted_py_slice, (sort_reverse_ties s0); [done|].
  clear -HF Hall. revert Hall.
  induction HF as [|d p l k [Hp _] _ IH]; intros Hall; [constructor|].
  apply Forall_cons in Hall as [Hd Hall].
  constructor; [congruence|by apply IH].
Qed.

Context `{FO : !FloatOrder}.

(** X7: when the query is embedded and every similarity is computed, the
    result is read off a ranking of all stored chunks by non-increasing
    similarity: it is the contents of the slice [ranking[:top_k]], so no
    chunk left out is more similar than a chunk returned. *)
Theorem get_relevant_chunks_ranking query top_k h q w :
  embeddings_create query (ext h) = (Ok q, w) ->
  Forall (fun d => exists s, cosine_similarity q (embedding d) = Ok s)
    (documents (document_store h)) ->
  exists (ranking : list StoredChunk) (sims : list pyfloat) h',
    ranking ≡ₚ documents (document_store h) /\
    Forall2 (fun d s => cosine_similarity q (embedding d) = Ok s) ranking sims /\
    StronglySorted (fun a b => float_ltb a b = false) sims /\
    get_relevant_chunks query top_k h
      = Some (Ok (map content (py_slice ranking 0 top_k)), h').
Proof.
  intros Hcall Hall. rewrite get_relevant_chunks_run, Hcall.
  destruct (documents (document_store h)) as [|doc docs] eqn:Hdocs.
  { exists [], [], h. rewrite py_slice_nil. repeat split; constructor. }
  destruct (similarities_loop_all q (doc :: docs) [] (set_ext w h) Hall)
    as (scored & -> & HF).
  rewrite ?app_nil_l.
  destruct (Forall2_perm_r _ _ _ (sort_reverse scored) HF) as (ranking & Hperm & HF').
  { symmetry. apply sort_reverse_perm. }
  exists ranking, (map fst (sort_reverse scored)), (set_ext w h).
  split; [by symmetry|]. split; [|split].
  - clear -HF'. induction HF' as [|d p l k [Hp _] _ IH]; simpl; by constructor.
  - apply StronglySorted_map, sort_reverse_sorted.
  - by rewrite <- !py_slice_map, (scored_contents _ _ _ HF').
Qed.

End RetrievalMore.

Lemma get_relevant_chunks_ranking_witness :
  exists (ranking : list StoredChunk) (sims : list pyfloat) h',
    ranking ≡ₚ documents (document_store (Scripted.shelf 1)) /\
    Forall2 (fun d s => cosine_similarity (Scripted.answer 3) (embedding d) = Ok s)
      ranking sims /\
    StronglySorted (fun a b => float_ltb a b = false) sims /\
    get_relevant_chunks (lit "xyz") 2 (Scripted.shelf 1)
      = Some (Ok (map content (py_slice ranking 0 2)), h').
Proof.
  apply (@get_relevant_chunks_ranking Scripted.runtime scripted_float_order
           (lit "xyz") 2 (Scripted.shelf 1) (Scripted.answer 3) O);
    [reflexivity|].
  repeat constructor; eexists; vm_compute; reflexivity.
Defined.

Lemma get_relevant_chunks_count_witness :
  len [lit "abcd"; lit "ab"] = Z.max 0 (len (documents (document_store (Scripted.shelf 1))) + -1).
Proof.
  apply (get_relevant_chunks_count (lit "xyz") (-1) (Scripted.shelf 1)
           (Scripted.answer 3) O [lit "abcd"; lit "ab"] (Scripted.shelf 0));
    [reflexivity | | vm_compute; reflexivity].
  repeat constructor; eexists; vm_compute; reflexivity.
Defined.

Lemma get_relevant_chunks_stored_witness :
  [lit "abcd"; lit "ab"] ⊆+ map content (documents (document_store (Scripted.shelf 1))).
Proof.
  apply (get_relevant_chunks_stored (lit "xyz") 2 (Scripted.shelf 1)
           [lit "abcd"; lit "ab"] (Scripted.shelf 0)).
  vm_compute. reflexivity.
Defined.

Lemma get_relevant_chunks_ties_witness :
  StronglySorted (fun a b => str_ltb a b = false) [lit "c"; lit "b"; lit "a"].
Proof.
  apply (get_relevant_chunks_ties (lit "xyz") 3
           (set_documents
              [stored (lit "notes.txt") (lit "b") (Scripted.answer 1);
               stored (lit "notes.txt") (lit "a") (Scripted.answer 1);
               stored (lit "notes.txt") (lit "c") (Scripted.answer 1)]
              (Scripted.fresh 1))
           (Scripted.answer 3) O 4 [lit "c"; lit "b"; lit "a"]
           (set_documents
              [stored (lit "notes.txt") (lit "b") (Scripted.answer 1);
               stored (lit "notes.txt") (lit "a") (Scripted.answer 1);
               stored (lit "notes.txt") (lit "c") (Scripted.answer 1)]
              (Scripted.fresh 0)));
    [reflexivity | reflexivity | | vm_compute; reflexivity].
  repeat constructor.
Defined.

Lemma get_relevant_chunks_similarity_failure_witness :
  get_relevant_chunks (lit "xyz") 3
    (set_documents
       [stored (lit "notes.txt") (lit "ab") (Scripted.answer 2);
        stored (lit "old.txt") (lit "abcd") (Scripted.vector [4])]
       (Scripted.fresh 1))
  = Some (Ok [],
          set_documents
            [stored (lit "notes.txt") (lit "ab") (Scripted.answer 2);
             stored (lit "old.txt") (lit "abcd") (Scripted.vector [4])]
            (Scripted.fresh 0)).
Proof.
  apply (get_relevant_chunks_similarity_failure (lit "xyz") 3
           (set_documents
              [stored (lit "notes.txt") (lit "ab") (Scripted.answer 2);
               stored (lit "old.txt") (lit "abcd") (Scripted.vector [4])]
              (Scripted.fresh 1))
           (Scripted.answer 3) O (stored (lit "old.txt") (lit "abcd") (Scripted.vector [4])) ValueError);
    [reflexivity | | reflexivity].
  apply list_elem_of_In. simpl. auto.
Defined.

(** * More on text extraction and the upload endpoint *)

Section UploadMore.
Context `{RT : Runtime}.
Implicit Types (h : heap) (file : UploadFile) (files : list UploadFile).

(** What [extract_text_from_file] does, branch by branch. *)
Lemma extract_text_from_file_run file_content name h :
  extract_text_from_file file_content name h =
  if endswith name (lit ".txt") then
    Some (match decode_utf8 file_content with
          | Ok text => Ok text
          | Raise _ => Raise (HTTPException 500)
          end, h)
  else if TEXTRACT_AVAILABLE then
    Some (match (textract_process file_content name (ext h)).1 with
          | Ok raw =>
              match decode_utf8 raw with
              | Ok text => Ok text
              | Raise _ => Raise (HTTPException 500)
              end
          | Raise _ => Raise (HTTPException 500)
          end, set_ext (textract_process file_content name (ext h)).2 h)
  else Some (Raise (HTTPException 500), h).
Proof.
  unfold extract_text_from_file, try_except, call, raise.
  destruct (endswith name (lit ".txt")) eqn:Htxt.
  - by destruct (decode_utf8 file_content).
  - destruct TEXTRACT_AVAILABLE; [|done].
    unfold bind. destruct (textract_process file_content name (ext h)) as [[raw|e] w];
      simpl; [|done].
    by destruct (decode_utf8 raw).
Qed.

(** X12: a file whose name ends in ".txt" is decoded as UTF-8 and nothing
    else happens: textract is not run, whether it is installed or not, and
    bytes that do not decode give a 500. *)
Theorem extract_text_from_file_txt file_content name h :
  endswith name (lit ".txt") = true ->
  extract_text_from_file file_content name h =
  Some (match decode_utf8 file_content with
        | Ok text => Ok text
        | Raise _ => Raise (HTTPException 500)
        end, h).
Proof. intros Htxt. by rewrite extract_text_from_file_run, Htxt. Qed.

(** X13: [extract_text_from_file] always ends, never touches the store, and
    raises nothing but a 500.  In particular the 400 it raises for a file
    that is not ".txt" when textract is missing leaves as a 500. *)
Theorem extract_text_from_file_errors file_content name h :
  (exists r h',
     extract_text_from_file file_content name h = Some (r, h') /\
     document_store h' = document_store h /\
     forall e, r = Raise e -> e = HTTPException 500) /\
  (TEXTRACT_AVAILABLE = false ->
   endswith name (lit ".txt") = false ->
   extract_text_from_file file_content name h = Some (Raise (HTTPException 500), h)).
Proof.
  rewrite extract_text_from_file_run. split.
  - destruct (endswith name (lit ".txt")).
    + eexists _, h. split; [done|]. split; [done|].
      destruct (decode_utf8 file_content); congruence.
    + destruct TEXTRACT_AVAILABLE.
      * eexists _, _. split; [done|]. split; [done|].
        destruct (textract_process _ _ _).1 as [raw|]; [|congruence].
        destruct (decode_utf8 raw); congruence.
      * eexists _, h. split; [done|]. split; [done|]. congruence.
  - by intros -> ->.
Qed.

Lemma upload_files_run fuel file files h :
  len (file :: files) <= 5 ->
  upload_files fuel (file :: files) h =
  match for_ (file :: files) (upload_one fuel) h with
  | Some (Ok _, h') =>
      Some (Ok {| message := lit "Files uploaded successfully";
                  count := len (file :: files);
                  status := lit "success";
                  textract_available := TEXTRACT_AVAILABLE |}, h')
  | Some (Raise _, h') => Some (Raise (HTTPException 500), h')
  | None => None
  end.
Proof.
  intros Hlen. unfold upload_files.
  destruct (Z.gtb_spec (len (file :: files)) 5); [lia|].
  unfold try_except, bind, ret, raise.
  by destruct (for_ (file :: files) (upload_one fuel) h) as [[[[]|e] h1]|].
Qed.

Lemma upload_one_run fuel file h :
  endswith_any (str_lower (file_filename file)) allowed_extensions = true ->
  upload_one fuel file h =
  match extract_text_from_file (file_bytes file) (file_filename file) h with
  | Some (Ok text, h1) =>
      match add_document fuel text (file_filename file) h1 with
      | Some (Ok _, h2) => Some (Ok tt, h2)
      | Some (Raise _, h2) => Some (Raise (HTTPException 400), h2)
      | None => None
      end
  | Some (Raise _, h1) => Some (Raise (HTTPException 400), h1)
  | None => None
  end.
Proof.
  intros Hext. unfold upload_one. rewrite Hext. simpl.
  unfold try_except, bind, raise.
  destruct (extract_text_from_file _ _ h) as [[[text|e] h1]|]; [|done|done].
  by destruct (add_document fuel text (file_filename file) h1) as [[[[]|e] h2]|].
Qed.

Lemma for_app {A} (xs ys : list A) (body : A -> M unit) h :
  for_ (xs ++ ys) body h =
  match for_ xs body h with
  | Some (Ok _, h1) => for_ ys body h1
  | other => other
  end.
Proof.
  revert h. induction xs as [|x xs IH]; intros h; simpl; [done|].
  unfold bind. destruct (body x h) as [[[[]|e] h1]|]; [|done|done].
  apply IH.
Qed.

Lemma for_upload_ok fuel files h h' :
  for_ files (upload_one fuel) h = Some (Ok tt, h') ->
  Forall (fun file =>
            endswith_any (str_lower (file_filename file)) allowed_extensions = true)
    files.
Proof.
  revert h. induction files as [|file files IH]; intros h; simpl; [constructor|].
  unfold bind. destruct (upload_one fuel file h) as [[[[]|e] h1]|] eqn:Hone;
    [|done|done].
  intros Hrest. constructor; [|by eapply IH].
  unfold upload_one in Hone.
  by destruct (endswith_any _ _).
Qed.

(** X14: when the upload returns a response, there were between one and
    five files, every file name ends, once lowered, in an allowed extension,
    and the response counts the files of the request. *)
Theorem upload_files_success fuel files h response h' :
  upload_files fuel files h = Some (Ok response, h') ->
  1 <= len files <= 5 /\
  Forall (fun file =>
            endswith_any (str_lower (file_filename file)) allowed_extensions = true)
    files /\
  response = {| message := lit "Files uploaded successfully";
                count := len files;
                status := lit "success";
                textract_available := TEXTRACT_AVAILABLE |}.
Proof.
  destruct files as [|file files]; [done|].
  destruct (Z_le_gt_dec (len (file :: files)) 5) as [Hlen|Hlen].
  - rewrite upload_files_run by done.
    destruct (for_ (file :: files) (upload_one fuel) h) as [[[[]|e] h1]|] eqn:Hfor;
      [|done|done].
    intros [= <- <-]. split; [unfold len in *; simpl in *; lia|].
    split; [by eapply for_upload_ok|done].
  - unfold upload_files. by destruct (Z.gtb_spec (len (file :: files)) 5); [|lia].
Qed.

(** X15: an upload is not atomic either: when the files before a file with
    a bad extension were processed, the request fails with 500 and the
    chunks of those earlier files stay in the store. *)
Theorem upload_files_partial fuel processed bad rest h h1 :
  len (processed ++ bad :: rest) <= 5 ->
  for_ processed (upload_one fuel) h = Some (Ok tt, h1) ->
  endswith_any (str_lower (file_filename bad)) allowed_extensions = false ->
  upload_files fuel (processed ++ bad :: rest) h
    = Some (Raise (HTTPException 500), h1) /\
  documents (document_store h) `prefix_of` documents (document_store h1).
Proof.
  intros Hlen Hdone Hbad. split.
  - assert (for_ (processed ++ bad :: rest) (upload_one fuel) h
            = Some (Raise (HTTPException 400), h1)) as Hfor.
    { rewrite for_app, Hdone. simpl. unfold bind, upload_one. by rewrite Hbad. }
    destruct (processed ++ bad :: rest) as [|file files] eqn:Hfiles.
    { by destruct processed. }
    rewrite upload_files_run by done. by rewrite Hfor.
  - eapply grows_for_; [|exact Hdone]. intros file. apply grows_upload_one.
Qed.

(** X16: the extension check lowers the file name but the extraction does
    not: without textract, a file named like "NOTES.TXT" passes the check
    and is then refused, so the upload fails with 500 and stores nothing. *)
Theorem upload_files_uppercase_txt fuel file h :
  TEXTRACT_AVAILABLE = false ->
  endswith (str_lower (file_filename file)) (lit ".txt") = true ->
  endswith (file_filename file) (lit ".txt") = false ->
  upload_files fuel [file] h = Some (Raise (HTTPException 500), h).
Proof.
  intros Htextract Hlower Hname.
  rewrite upload_files_run by (unfold len; simpl; lia).
  simpl. unfold bind at 1. rewrite upload_one_run.
  - rewrite extract_text_from_file_run, Hname, Htextract. done.
  - unfold allowed_extensions. rewrite Htextract. simpl. by rewrite Hlower.
Qed.

(** X17: uploading one ".txt" file whose bytes decode is [add_document] on
    the decoded text under the file's name: a success gives a response that
    counts one file, and a failure of the embedding provider gives 500 and
    leaves in the store what [add_document] left. *)
Theorem upload_files_one_txt fuel file h text r h' :
  endswith (file_filename file) (lit ".txt") = true ->
  endswith (str_lower (file_filename file)) (lit ".txt") = true ->
  decode_utf8 (file_bytes file) = Ok text ->
  add_document fuel text (file_filename file) h = Some (r, h') ->
  upload_files fuel [file] h =
  Some (match r with
        | Ok _ => Ok {| message := lit "Files uploaded successfully";
                        count := 1;
                        status := lit "success";
                        textract_available := TEXTRACT_AVAILABLE |}
        | Raise _ => Raise (HTTPException 500)
        end, h').
Proof.
  intros Hname Hlower Hdecode Hadd.
  rewrite upload_files_run by (unfold len; simpl; lia).
  simpl. unfold bind at 1. rewrite upload_one_run.
  - rewrite extract_text_from_file_run, Hname, Hdecode, Hadd.
    by destruct r as [[]|e].
  - unfold allowed_extensions, endswith_any.
    destruct (negb TEXTRACT_AVAILABLE); simpl; by rewrite Hlower.
Qed.

End UploadMore.

(** * The chunking parameters never change *)

Section ParametersKept.
Context `{RT : Runtime}.
Implicit Types (h : heap) (text : str).

Lemma keeps_same_store {A} (m : M A) :
  (forall h r h', m h = Some (r, h') -> document_store h' = document_store h) ->
  keeps_parameters m.
Proof. intros Hm h r h' Hrun. by rewrite (Hm _ _ _ Hrun). Qed.

Lemma keeps_ret {A} (a : A) : keeps_parameters (ret a).
Proof. by intros h r h' [= _ <-]. Qed.

Lemma keeps_raise {A} (e : exn) : keeps_parameters (@raise _ A e).
Proof. by intros h r h' [= _ <-]. Qed.

Lemma keeps_bind {A B} (m : M A) (k : A -> M B) :
  keeps_parameters m -> (forall a, keeps_parameters (k a)) ->
  keeps_parameters (bind m k).
Proof.
  intros Hm Hk h r h'. unfold bind.
  destruct (m h) as [[[a|e] h1]|] eqn:Hrun; [| |done].
  - intros Hrun'. destruct (Hm _ _ _ Hrun) as [<- <-]. by eapply Hk.
  - intros [= _ <-]. by eapply Hm.
Qed.

Lemma keeps_try_except {A} (body : M A) (handler : exn -> M A) :
  keeps_parameters body -> (forall e, keeps_parameters (handler e)) ->
  keeps_parameters (try_except body handler).
Proof.
  intros Hbody Hhandler h r h'. unfold try_except.
  destruct (body h) as [[[a|e] h1]|] eqn:Hrun; [| |done].
  - intros [= _ <-]. by eapply Hbody.
  - intros Hrun'. destruct (Hbody _ _ _ Hrun) as [<- <-]. by eapply Hhandler.
Qed.

Lemma keeps_for_ {A} (xs : list A) (body : A -> M unit) :
  (forall x, keeps_parameters (body x)) -> keeps_parameters (for_ xs body).
Proof.
  intros Hbody. induction xs as [|x xs IH]; simpl.
  - apply keeps_ret.
  - apply keeps_bind; [apply Hbody|done].
Qed.

Lemma keeps_add_document fuel text name : keeps_parameters (add_document fuel text name).
Proof.
  unfold add_document. apply keeps_bind.
  - apply keeps_same_store. intros h r h' Hrun.
    by apply _create_chunks_returns in Hrun as (_ & _ & ->).
  - intros chunks. apply keeps_try_except; [|intros e; apply keeps_raise].
    apply keeps_for_. intros chunk. apply keeps_bind.
    + apply keeps_same_store, _generate_embedding_store.
    + intros e h r h' [= _ <-]. done.
Qed.

Lemma extract_text_from_file_ends file_content name h :
  exists r h',
    extract_text_from_file file_content name h = Some (r, h') /\
    document_store h' = document_store h.
Proof.
  rewrite extract_text_from_file_run.
  destruct (endswith name (lit ".txt")); [by eexists _, _|].
  destruct TEXTRACT_AVAILABLE; by eexists _, _.
Qed.

Lemma keeps_upload_one fuel file : keeps_parameters (upload_one fuel file).
Proof.
  unfold upload_one. destruct (negb _); [apply keeps_raise|].
  apply keeps_try_except; [|intros e; apply keeps_raise].
  apply keeps_bind; [|intros text; apply keeps_add_document].
  apply keeps_same_store. intros h r h' Hrun.
  destruct (extract_text_from_file_ends (file_bytes file) (file_filename file) h)
    as (r1 & h1 & Hrun1 & Hstore).
  rewrite Hrun1 in Hrun. by injection Hrun as _ <-.
Qed.

Lemma keeps_upload_files fuel files : keeps_parameters (upload_files fuel files).
Proof.
  unfold upload_files. destruct files as [|file files]; [apply keeps_raise|].
  destruct (len (file :: files) >? 5); [apply keeps_raise|].
  apply keeps_try_except; [|intros e; apply keeps_raise].
  apply keeps_bind; [|intros u; apply keeps_ret].
  apply keeps_for_, keeps_upload_one.
Qed.

(** X18: no operation on the store changes [chunk_size] or [chunk_overlap]:
    they are after [add_document], [get_relevant_chunks], [upload_files] and
    [health_check] what they were before, however the operation ends. *)
Theorem parameters_kept fuel text name query top_k files :
  keeps_parameters (add_document fuel text name) /\
  keeps_parameters (get_relevant_chunks query top_k) /\
  keeps_parameters (upload_files fuel files) /\
  keeps_parameters health_check.
Proof.
  split; [apply keeps_add_document|]. split; [|split].
  - apply keeps_same_store. intros h r h' Hrun.
    destruct (get_relevant_chunks_returns query top_k h) as (c & h1 & Hrun1 & Hstore).
    rewrite Hrun1 in Hrun. by injection Hrun as _ <-.
  - apply keeps_upload_files.
  - by intros h r h' [= _ <-].
Qed.

(** With a positive step, [add_document] gives the same result for every
    fuel above the length of the text. *)
Lemma add_document_fuel text name h :
  chunk_overlap (document_store h) < chunk_size (document_store h) ->
  exists r h', forall fuel, (length text < fuel)%nat ->
    add_document fuel text name h = Some (r, h').
Proof.
  intros Hstep. destruct (_create_chunks_total text h Hstep) as (chunks & Hchunks).
  eexists _, _. intros fuel Hfuel.
  by rewrite (add_document_run _ _ _ _ _ (Hchunks fuel Hfuel)).
Qed.

Lemma upload_one_fuel file h :
  chunk_overlap (document_store h) < chunk_size (document_store h) ->
  exists n r h', forall fuel, (n <= fuel)%nat -> upload_one fuel file h = Some (r, h').
Proof.
  intros Hstep.
  destruct (endswith_any (str_lower (file_filename file)) allowed_extensions) eqn:Hext.
  - destruct (extract_text_from_file_ends (file_bytes file) (file_filename file) h)
      as ([text|e] & h1 & Hrun1 & Hstore).
    + destruct (add_document_fuel text (file_filename file) h1) as (r & h2 & Hadd).
      { by rewrite Hstore. }
      exists (S (length text)).
      destruct r as [[]|e]; eexists _, _; intros fuel Hfuel;
        rewrite upload_one_run, Hrun1, Hadd by (done || lia); reflexivity.
    + exists O. eexists _, _. intros fuel _. by rewrite upload_one_run, Hrun1.
  - exists O. eexists _, _. intros fuel _. unfold upload_one. by rewrite Hext.
Qed.

Lemma for_upload_fuel files h :
  chunk_overlap (document_store h) < chunk_size (document_store h) ->
  exists n r h', forall fuel, (n <= fuel)%nat ->
    for_ files (upload_one fuel) h = Some (r, h').
Proof.
  revert h. induction files as [|file files IH]; intros h Hstep.
  - exists O. by eexists _, _.
  - destruct (upload_one_fuel file h Hstep) as (n1 & r1 & h1 & Hone).
    destruct r1 as [[]|e].
    + destruct (IH h1) as (n2 & r2 & h2 & Hrest).
      { destruct (keeps_upload_one n1 file h (Ok tt) h1 (Hone n1 (Nat.le_refl _)))
          as [-> ->]. done. }
      exists (n1 `max` n2)%nat, r2, h2. intros fuel Hfuel.
      simpl. unfold bind. rewrite Hone by lia. apply Hrest. lia.
    + exists n1, (Raise e), h1. intros fuel Hfuel.
      simpl. unfold bind. by rewrite Hone.
Qed.

(** X19: with chunk_overlap < chunk_size, as [__init__] sets them, an upload
    always ends: from some fuel on, [upload_files] gives one and the same
    response or error, whatever the files and the providers do. *)
Theorem upload_files_terminates files h :
  chunk_overlap (document_store h) < chunk_size (document_store h) ->
  exists n r h', forall fuel, (n <= fuel)%nat ->
    upload_files fuel files h = Some (r, h').
Proof.
  intros Hstep. destruct files as [|file files].
  { exists O. by eexists _, _. }
  destruct (Z_le_gt_dec (len (file :: files)) 5) as [Hlen|Hlen].
  - destruct (for_upload_fuel (file :: files) h Hstep) as (n & r & h' & Hfor).
    exists n. destruct r as [[]|e]; eexists _, _; intros fuel Hfuel;
      rewrite upload_files_run, Hfor by done; reflexivity.
  - exists O. eexists _, _. intros fuel _. unfold upload_files.
    by destruct (Z.gtb_spec (len (file :: files)) 5); [|lia].
Qed.

End ParametersKept.

Lemma upload_files_terminates_witness :
  exists n r h', forall fuel, (n <= fuel)%nat ->
    upload_files fuel [Scripted.upload "plan.txt" 2500] (Scripted.fresh 10)
    = Some (r, h').
Proof.
  apply (upload_files_terminates [Scripted.upload "plan.txt" 2500] (Scripted.fresh 10)).
  simpl. lia.
Defined.

(** * POST /api/generate *)

Section GenerationProperties.
Context `{CR : ChatRuntime}.
Implicit Types (h : heap) (body : gmap str str).

Lemma generate_proposal_chunk_run prompt h :
  generate_proposal_chunk prompt h =
  Some ((chat_completions_create prompt (ext h)).1,
        set_ext (chat_completions_create prompt (ext h)).2 h).
Proof.
  unfold generate_proposal_chunk, try_except, raise.
  by destruct (chat_completions_create prompt (ext h)) as [[p|e] w].
Qed.

(** What [get_relevant_chunks] returns, whatever the order of floats. *)
Lemma get_relevant_chunks_result query top_k h contents h' :
  get_relevant_chunks query top_k h = Some (Ok contents, h') ->
  contents ⊆+ map content (documents (document_store h)) /\
  (0 <= top_k -> len contents <= top_k) /\
  document_store h' = document_store h.
Proof.
  rewrite get_relevant_chunks_run.
  destruct (documents (document_store h)) as [|doc docs] eqn:Hdocs.
  { intros [= <- <-]. unfold len. simpl. split; [done|]. split; [lia|done]. }
  destruct (embeddings_create query (ext h)) as [[q|e] w].
  - destruct (similarities_loop_run q (doc :: docs) [] (set_ext w h))
      as [[e ->]|(scored & -> & HF)].
    + intros [= <- <-]. unfold len. simpl.
      split; [apply submseteq_nil_l|]. split; [lia|done].
    + intros [= <- <-]. rewrite ?app_nil_l. split; [|split; [|done]].
      * rewrite <- (scored_contents _ _ _ HF), <- py_slice_map.
        etrans; [apply sublist_submseteq, py_slice_sublist|].
        apply Permutation_submseteq, Permutation_map, sort_reverse_perm.
      * intros Hk. unfold len. rewrite length_map.
        by apply py_slice_prefix_length.
  - intros [= <- <-]. unfold len. simpl.
    split; [apply submseteq_nil_l|]. split; [lia|done].
Qed.

Lemma generate_proposal_run body h requirements :
  body !! lit "requirements" = Some requirements ->
  requirements <> [] ->
  generate_proposal body h =
  match get_relevant_chunks requirements 3 h with
  | Some (Ok relevant_chunks, h1) =>
      let answer :=
        chat_completions_create
          (full_prompt requirements (context_of relevant_chunks)) (ext h1) in
      Some (match answer.1 with
            | Ok text => Ok {| proposal := text |}
            | Raise _ => Raise (HTTPException 500)
            end, set_ext answer.2 h1)
  | Some (Raise _, h1) => Some (Raise (HTTPException 500), h1)
  | None => None
  end.
Proof.
  intros Hbody Hne. unfold generate_proposal. rewrite Hbody.
  destruct requirements as [|c requirements]; [done|].
  unfold try_except, bind at 1.
  destruct (get_relevant_chunks (c :: requirements) 3 h) as [[[chunks|e] h1]|];
    [|done|done].
  unfold bind, ret, raise. rewrite generate_proposal_chunk_run. simpl.
  by destruct (chat_completions_create _ (ext h1)).1.
Qed.

(** X20: a body without "requirements", or with an empty string for it, is
    refused with 400 before anything is called: the heap is untouched. *)
Theorem generate_proposal_no_requirements body h :
  body !! lit "requirements" = None \/ body !! lit "requirements" = Some [] ->
  generate_proposal body h = Some (Raise (HTTPException 400), h).
Proof.
  intros Hbody. unfold generate_proposal. unfold str in *.
  by destruct Hbody as [-> | ->].
Qed.

(** X21: with requirements, a generation always ends; it makes one call to
    the chat model, with a prompt whose context holds at most three chunk
    contents, all of them stored; it returns the model's answer or fails
    with 500, and it never changes the store. *)
Theorem generate_proposal_prompt body h requirements :
  body !! lit "requirements" = Some requirements ->
  requirements <> [] ->
  exists relevant_chunks h1,
    get_relevant_chunks requirements 3 h = Some (Ok relevant_chunks, h1) /\
    len relevant_chunks <= 3 /\
    relevant_chunks ⊆+ map content (documents (document_store h)) /\
    generate_proposal body h =
      Some (match (chat_completions_create
                     (full_prompt requirements (context_of relevant_chunks))
                     (ext h1)).1 with
            | Ok text => Ok {| proposal := text |}
            | Raise _ => Raise (HTTPException 500)
            end,
            set_ext (chat_completions_create
                       (full_prompt requirements (context_of relevant_chunks))
                       (ext h1)).2 h1) /\
    document_store h1 = document_store h.
Proof.
  intros Hbody Hne. rewrite (generate_proposal_run _ _ _ Hbody Hne).
  destruct (get_relevant_chunks_returns requirements 3 h)
    as (relevant_chunks & h1 & Hrun & Hstore).
  destruct (get_relevant_chunks_result _ _ _ _ _ Hrun) as (Hsub & Hlen & _).
  exists relevant_chunks, h1. rewrite Hrun.
  split; [done|]. split; [apply Hlen; lia|]. by split.
Qed.

(** X22: a retrieval that finds nothing does not fail the generation.  On an
    empty store no embedding is requested, and when embedding the
    requirements fails the error is dropped; in both cases the chat model
    gets the prompt without any context and its answer is returned. *)
Theorem generate_proposal_without_context body h requirements :
  body !! lit "requirements" = Some requirements ->
  requirements <> [] ->
  (documents (document_store h) = [] ->
   forall text w,
     chat_completions_create (full_prompt requirements []) (ext h) = (Ok text, w) ->
     generate_proposal body h = Some (Ok {| proposal := text |}, set_ext w h)) /\
  (documents (document_store h) <> [] ->
   forall e w1 text w2,
     embeddings_create requirements (ext h) = (Raise e, w1) ->
     chat_completions_create (full_prompt requirements []) w1 = (Ok text, w2) ->
     generate_proposal body h = Some (Ok {| proposal := text |}, set_ext w2 h)).
Proof.
  intros Hbody Hne. rewrite (generate_proposal_run _ _ _ Hbody Hne).
  rewrite get_relevant_chunks_run. split.
  - intros -> text w Hchat. simpl. by rewrite Hchat.
  - intros Hdocs e w1 text w2 Hembed Hchat.
    destruct (documents (document_store h)); [done|].
    rewrite Hembed. simpl. by rewrite Hchat.
Qed.

End GenerationProperties.

Lemma generate_proposal_no_requirements_witness :
  generate_proposal (ScriptedChat.requirements "") (Scripted.shelf 2)
  = Some (Raise (HTTPException 400), Scripted.shelf 2).
Proof.
  apply (generate_proposal_no_requirements (ScriptedChat.requirements "")
           (Scripted.shelf 2)).
  right. reflexivity.
Defined.

Lemma generate_proposal_prompt_witness :
  exists relevant_chunks h1,
    get_relevant_chunks (lit "xyz") 3 (Scripted.shelf 2)
      = Some (Ok relevant_chunks, h1) /\
    len relevant_chunks <= 3 /\
    relevant_chunks ⊆+ map content (documents (document_store (Scripted.shelf 2))) /\
    generate_proposal (ScriptedChat.requirements "xyz") (Scripted.shelf 2) =
      Some (match (chat_completions_create
                     (full_prompt (lit "xyz") (context_of relevant_chunks))
                     (ext h1)).1 with
            | Ok text => Ok {| proposal := text |}
            | Raise _ => Raise (HTTPException 500)
            end,
            set_ext (chat_completions_create
                       (full_prompt (lit "xyz") (context_of relevant_chunks))
                       (ext h1)).2 h1) /\
    document_store h1 = document_store (Scripted.shelf 2).
Proof.
  apply (generate_proposal_prompt (ScriptedChat.requirements "xyz") (Scripted.shelf 2)
           (lit "xyz")); [reflexivity | discriminate].
Defined.

Lemma generate_proposal_without_context_witness :
  generate_proposal (ScriptedChat.requirements "xyz") (Scripted.fresh 1)
    = Some (Ok {| proposal := full_prompt (lit "xyz") [] |}, Scripted.fresh 1) /\
  generate_proposal (ScriptedChat.requirements "xyz")
    (set_documents [stored (lit "notes.txt") (lit "ab") (Scripted.answer 2)]
       (Scripted.fresh 0))
    = Some (Ok {| proposal := full_prompt (lit "xyz") [] |},
            set_documents [stored (lit "notes.txt") (lit "ab") (Scripted.answer 2)]
              (Scripted.fresh 0)).
Proof.
  split.
  - apply (proj1 (generate_proposal_without_context (ScriptedChat.requirements "xyz")
                    (Scripted.fresh 1) (lit "xyz") eq_refl ltac:(discriminate)));
      reflexivity.
  - apply (proj2 (generate_proposal_without_context (ScriptedChat.requirements "xyz")
                    (set_documents
                       [stored (lit "notes.txt") (lit "ab") (Scripted.answer 2)]
                       (Scripted.fresh 0))
                    (lit "xyz") eq_refl ltac:(discriminate))
             ltac:(discriminate) ProviderError O (full_prompt (lit "xyz") []) O);
      reflexivity.
Defined.

(** A generation over the three stored chunks: the scripted model echoes
    its prompt, which lists the three contents by decreasing similarity. *)
Example generate_proposal_shelf :
  generate_proposal (ScriptedChat.requirements "xyz") (Scripted.shelf 2)
  = Some (Ok {| proposal :=
                  lit "Generate a grant proposal based on these requirements: xyz"
                    ++ nl ++ nl ++ nl ++ lit "Relevant reference materials:" ++ nl
                    ++ lit "abcd" ++ nl ++ lit "---" ++ nl
                    ++ lit "ab" ++ nl ++ lit "---" ++ nl ++ lit "a" |},
          Scripted.shelf 1).
Proof. by vm_compute. Qed.

(** * Concrete runs of extraction and upload *)

#[local] Existing Instance Scripted.runtime.

Lemma extract_text_from_file_txt_witness :
  extract_text_from_file (repeat Byte.x61 3) (lit "a.txt") (Scripted.fresh 0)
  = Some (Ok (lit "aaa"), Scripted.fresh 0).
Proof.
  apply (extract_text_from_file_txt (repeat Byte.x61 3) (lit "a.txt") (Scripted.fresh 0)).
  reflexivity.
Defined.

Lemma extract_text_from_file_errors_witness :
  extract_text_from_file (repeat Byte.x61 3) (lit "cv.docx") (Scripted.fresh 0)
  = Some (Raise (HTTPException 500), Scripted.fresh 0).
Proof.
  apply (proj2 (extract_text_from_file_errors (repeat Byte.x61 3) (lit "cv.docx")
                  (Scripted.fresh 0)));
    reflexivity.
Defined.

Lemma upload_files_success_witness :
  1 <= len [Scripted.upload "a.txt" 3] <= 5 /\
  Forall (fun file =>
            endswith_any (str_lower (file_filename file)) allowed_extensions = true)
    [Scripted.upload "a.txt" 3] /\
  {| message := lit "Files uploaded successfully"; count := 1;
     status := lit "success"; textract_available := false |}
  = {| message := lit "Files uploaded successfully";
       count := len [Scripted.upload "a.txt" 3];
       status := lit "success";
       textract_available := TEXTRACT_AVAILABLE |}.
Proof.
  apply (upload_files_success 4 [Scripted.upload "a.txt" 3] (Scripted.fresh 5)
           {| message := lit "Files uploaded successfully"; count := 1;
              status := lit "success"; textract_available := false |}
           (set_documents [stored (lit "a.txt") (lit "aaa") (Scripted.answer 3)]
              (Scripted.fresh 4))).
  vm_compute. reflexivity.
Defined.

Lemma upload_files_partial_witness :
  upload_files 4 ([Scripted.upload "a.txt" 3] ++ Scripted.upload "b.pdf" 3 :: [])
    (Scripted.fresh 5)
  = Some (Raise (HTTPException 500),
          set_documents [stored (lit "a.txt") (lit "aaa") (Scripted.answer 3)]
            (Scripted.fresh 4)) /\
  documents (document_store (Scripted.fresh 5)) `prefix_of`
    documents (document_store
                 (set_documents [stored (lit "a.txt") (lit "aaa") (Scripted.answer 3)]
                    (Scripted.fresh 4))).
Proof.
  apply (upload_files_partial 4 [Scripted.upload "a.txt" 3] (Scripted.upload "b.pdf" 3)
           [] (Scripted.fresh 5));
    [vm_compute; discriminate | vm_compute; reflexivity | vm_compute; reflexivity].
Defined.

Lemma upload_files_uppercase_txt_witness :
  upload_files 4 [Scripted.upload "NOTES.TXT" 3] (Scripted.fresh 5)
  = Some (Raise (HTTPException 500), Scripted.fresh 5).
Proof.
  apply (upload_files_uppercase_txt 4 (Scripted.upload "NOTES.TXT" 3) (Scripted.fresh 5));
    vm_compute; reflexivity.
Defined.

Lemma upload_files_one_txt_witness :
  upload_files 4 [Scripted.upload "plan.txt" 2000] (Scripted.fresh 2)
  = Some (Raise (HTTPException 500),
          set_documents
            [stored (lit "plan.txt") (Scripted.a_text 1000) (Scripted.answer 1000);
             stored (lit "plan.txt") (Scripted.a_text 1000) (Scripted.answer 1000)]
            (Scripted.fresh 0)).
Proof.
  apply (upload_files_one_txt 4 (Scripted.upload "plan.txt" 2000) (Scripted.fresh 2)
           (Scripted.a_text 2000) (Raise ProviderError));
    vm_compute; reflexivity.
Defined.

(** * When retrieval comes back empty *)

Section EmptyResult.
Context `{RT : Runtime}.
Implicit Types (h : heap) (docs : list StoredChunk).

(** Either every similarity is computed or some stored chunk makes
    [cosine_similarity] raise. *)
Lemma similarities_all_or_fail q docs :
  Forall (fun d => exists s, cosine_similarity q (embedding d) = Ok s) docs \/
  exists d e, d ∈ docs /\ cosine_similarity q (embedding d) = Raise e.
Proof.
  induction docs as [|doc docs [IH|(d & e & Hin & Hfail)]].
  - left. constructor.
  - destruct (cosine_similarity q (embedding doc)) as [s|e] eqn:Hsim.
    + left. constructor; [by exists s|done].
    + right. exists doc, e. split; [apply list_elem_of_here|done].
  - right. exists d, e. split; [by apply list_elem_of_further|done].
Qed.

(** C6 (as the code has it): [get_relevant_chunks] never raises, and it
    returns the empty list in three failure situations, not two: when the
    store holds no documents (whatever the query and top_k), when embedding
    the query fails (whatever the store), and when [cosine_similarity]
    raises for a stored chunk.  For top_k > 0 an empty result comes from one
    of these three and from nothing else. *)
Theorem get_relevant_chunks_empty_exactly query top_k h :
  (documents (document_store h) = [] ->
     get_relevant_chunks query top_k h = Some (Ok [], h)) /\
  (forall e w, embeddings_create query (ext h) = (Raise e, w) ->
     exists h', get_relevant_chunks query top_k h = Some (Ok [], h') /\
                document_store h' = document_store h) /\
  (forall q w d e,
     embeddings_create query (ext h) = (Ok q, w) ->
     d ∈ documents (document_store h) ->
     cosine_similarity q (embedding d) = Raise e ->
     get_relevant_chunks query top_k h = Some (Ok [], set_ext w h)) /\
  (exists contents h', get_relevant_chunks query top_k h = Some (Ok contents, h')) /\
  (0 < top_k ->
   forall h', get_relevant_chunks query top_k h = Some (Ok [], h') ->
     documents (document_store h) = [] \/
     (exists e w, embeddings_create query (ext h) = (Raise e, w)) \/
     (exists q w d e,
        embeddings_create query (ext h) = (Ok q, w) /\
        d ∈ documents (document_store h) /\
        cosine_similarity q (embedding d) = Raise e)).
Proof.
  split; [|split; [|split; [|split]]].
  - intros Hdocs. by rewrite get_relevant_chunks_run, Hdocs.
  - intros e w Hcall. rewrite get_relevant_chunks_run, Hcall.
    destruct (documents (document_store h)) as [|doc docs]; [by exists h|].
    by exists (set_ext w h).
  - intros q w d e Hcall Hin Hfail. rewrite get_relevant_chunks_run, Hcall.
    destruct (documents (document_store h)) as [|doc docs] eqn:Hdocs.
    { by apply elem_of_nil in Hin. }
    by destruct (similarities_loop_fails q (doc :: docs) [] (set_ext w h) d e Hin Hfail)
      as [e' ->].
  - destruct (get_relevant_chunks_returns query top_k h) as (contents & h' & Hrun & _).
    by exists contents, h'.
  - intros Hk h'. rewrite get_relevant_chunks_run.
    destruct (documents (document_store h)) as [|doc docs] eqn:Hdocs; [by left|].
    destruct (embeddings_create query (ext h)) as [[q|e] w];
      [|intros _; right; left; by exists e, w].
    destruct (similarities_all_or_fail q (doc :: docs)) as [Hall|(d & e & Hin & Hfail)].
    + destruct (similarities_loop_all q (doc :: docs) [] (set_ext w h) Hall)
        as (scored & -> & HF).
      rewrite ?app_nil_l. intros [= Hnil _]. exfalso.
      apply (f_equal len) in Hnil.
      rewrite <- py_slice_map, py_slice_upto_length in Hnil.
      unfold len in Hnil.
      rewrite length_map, (Permutation_length (sort_reverse_perm scored)) in Hnil.
      rewrite <- (Forall2_length _ _ _ HF) in Hnil. simpl in Hnil.
      destruct (Z.ltb_spec top_k 0); lia.
    + intros _. right. right. by exists q, w, d, e.
Qed.

End EmptyResult.

Lemma get_relevant_chunks_empty_exactly_witness :
  get_relevant_chunks (lit "xyz") 3 (Scripted.fresh 1) = Some (Ok [], Scripted.fresh 1) /\
  (exists h', get_relevant_chunks (lit "xyz") 3 (Scripted.shelf 0) = Some (Ok [], h') /\
              document_store h' = document_store (Scripted.shelf 0)) /\
  get_relevant_chunks (lit "xyz") 3 (Scripted.mixed 1) = Some (Ok [], Scripted.mixed 0).
Proof.
  split; [|split].
  - apply (get_relevant_chunks_empty_exactly (lit "xyz") 3 (Scripted.fresh 1)).
    reflexivity.
  - apply (proj1 (proj2 (get_relevant_chunks_empty_exactly (lit "xyz") 3
                           (Scripted.shelf 0)))
             ProviderError O).
    reflexivity.
  - apply (proj1 (proj2 (proj2 (get_relevant_chunks_empty_exactly (lit "xyz") 3
                                  (Scripted.mixed 1))))
             (Scripted.answer 3) O
             (stored (lit "old.txt") (lit "abcd") (Scripted.vector [4])) ValueError);
      [reflexivity | | reflexivity].
    apply list_elem_of_In. simpl. auto.
Defined.

(** C6 (as stated) fails on a store of two chunks one of which has an
    embedding of another dimension: the store is not empty, the query is
    embedded, top_k is 3, and the result is empty all the same, because the
    exception of [cosine_similarity] is swallowed too.  So an empty result
    does not come from the two named situations only. *)
Lemma get_relevant_chunks_not_exactly_two :
  documents (document_store (Scripted.mixed 1)) <> [] /\
  embeddings_create (lit "xyz") (ext (Scripted.mixed 1)) = (Ok (Scripted.answer 3), O) /\
  cosine_similarity (Scripted.answer 3) (Scripted.vector [4]) = Raise ValueError /\
  get_relevant_chunks (lit "xyz") 3 (Scripted.mixed 1) = Some (Ok [], Scripted.mixed 0) /\
  ~ (forall query top_k (h h' : heap),
       0 < top_k ->
       get_relevant_chunks query top_k h = Some (Ok [], h') ->
       documents (document_store h) = [] \/
       exists e w, embeddings_create query (ext h) = (Raise e, w)).
Proof.
  split; [discriminate|]. split; [reflexivity|]. split; [reflexivity|].
  split; [by vm_compute|].
  intros Honly.
  destruct (Honly (lit "xyz") 3 (Scripted.mixed 1) (Scripted.mixed 0))
    as [Hempty|(e & w & Hfail)];
    [lia | by vm_compute | discriminate Hempty | discriminate Hfail].
Qed.
